(** * sunpycube: coordinate-aware cube indexing

    A shallow embedding of [sunpycube/cube/cube_utils.py] and
    [sunpycube/wcs_util.py], with the properties of the specification
    stated and settled against it.

    Conventions of the embedding:
    - a Python call that may raise returns [result A exn]; [Ok] is a normal
      return and [Error] carries the exception raised;
    - Python [int]s are [Z]; list positions and array extents are [nat];
    - numpy floats are idealised as exact rationals ([Q]);
    - the header dictionaries of [wcs_util] live in a store of mutable
      objects addressed by location, so that aliasing between the caller's
      header and the routine's working copy is visible;
    - operations of external collaborators (astropy's WCS resolution and
      slicing, the cube's product constructors) are parameters of the
      enclosing section or are recorded as the call that is made. *)

From Stdlib Require Import ZArith QArith Qround List String Ascii Bool Lia Lqa Permutation Sorted.
From stdpp Require Import gmap strings list pretty.

Import ListNotations.
Open Scope string_scope.
Open Scope list_scope.

(* ===================================================================== *)
(** ** Python exceptions and fallible calls *)
(* ===================================================================== *)

(** The exception classes the modelled code can raise.  [CubeError] is the
    only one carrying a numeric code ([self.value]). *)
Inductive exn : Type :=
| CubeError (value : Z) (msg : string)
| ValueError (msg : string)
| IndexError
| TypeError
| AttributeError
| UnboundLocalError
| UnitConversionError
| OverflowError
| InconsistentAxisTypesError (msg : string).

Definition py (A : Type) : Type := result A exn.

Definition raise {A : Type} (e : exn) : py A := Error e.

Definition bind {A B : Type} (c : py A) (k : A -> py B) : py B :=
  match c with
  | Ok a => k a
  | Error e => Error e
  end.

Notation "'do' x <- c ; k" := (bind c (fun x => k))
  (at level 20, x name, c at level 100, k at level 200, only parsing).

Definition is_ValueError (e : exn) : bool :=
  match e with ValueError _ => true | _ => false end.

Definition is_CubeError (e : exn) : bool :=
  match e with CubeError _ _ => true | _ => false end.

(** A call that, when it fails, never fails with the coded kind. *)
Definition never_coded {A : Type} (c : py A) : Prop :=
  forall e, c = Error e -> is_CubeError e = false.



(** [CubeError.errors]: the table of coded messages. *)
Definition CubeError_errors (value : Z) : option string :=
  match value with
  | 0%Z => Some "Unspecified error"
  | 1%Z => Some "Time dimension not present"
  | 2%Z => Some "Spectral dimension not present"
  | 3%Z => Some "Insufficient spatial dimensions"
  | 4%Z => Some "Dimension error"
  | 5%Z => Some "Slicing unit error"
  | 6%Z => Some "Unaligned array error"
  | _ => None
  end.

(* ===================================================================== *)
(** ** Python sequences *)
(* ===================================================================== *)

(** [l[i]] for a Python list or tuple: negative positions count from the
    end, anything outside raises [IndexError]. *)
Definition py_nth {A : Type} (l : list A) (i : Z) : py A :=
  let n := Z.of_nat (length l) in
  let j := if (i <? 0)%Z then (i + n)%Z else i in
  if (j <? 0)%Z then raise IndexError
  else match l !! Z.to_nat j with
       | Some a => Ok a
       | None => raise IndexError
       end.

(** [l.index(t)]: position of the first element equal to [t].  Python raises
    [ValueError] when there is none; every call in the modelled code looks up
    an element taken from [l] itself, and for an absent element this function
    returns [length l]. *)
Fixpoint list_index (l : list string) (t : string) : nat :=
  match l with
  | [] => 0
  | x :: r => if String.eqb t x then 0 else S (list_index r t)
  end.

(* ===================================================================== *)
(** ** [select_order] *)
(* ===================================================================== *)

(** The sort key built for one axis type: a priority and the type itself. *)
Definition order_entry (axtypes : list string) (t : string) : nat * string :=
  if String.eqb t "TIME" || String.eqb t "UTC" then (0, t)
  else if String.eqb t "WAVE" then (1, t)
  else if String.eqb t "HPLT-TAN" then (2, t)
  else (list_index axtypes t + 3, t).

(** Python's ordering of [(int, str)] tuples: lexicographic. *)
Definition entry_leb (a b : nat * string) : bool :=
  Nat.ltb (fst a) (fst b) || (Nat.eqb (fst a) (fst b) && String.leb (snd a) (snd b)).

(** [list.sort()].  Python's sort is stable; so is this insertion sort, and
    entries that compare equal are equal tuples. *)
Fixpoint sort_insert (x : nat * string) (l : list (nat * string)) : list (nat * string) :=
  match l with
  | [] => [x]
  | y :: r => if entry_leb x y then x :: y :: r else y :: sort_insert x r
  end.

Fixpoint list_sort (l : list (nat * string)) : list (nat * string) :=
  match l with
  | [] => []
  | x :: r => sort_insert x (list_sort r)
  end.

Definition select_order (axtypes : list string) : list nat :=
  let order := list_sort (map (order_entry axtypes) axtypes) in
  map (fun e => list_index axtypes (snd e)) order.

(** [result] is a bijection on [range(len(axtypes))]: it lists every
    position below [len(axtypes)] exactly once. *)
Definition is_bijection_on_range (n : nat) (result : list nat) : Prop :=
  Permutation result (seq 0 n).

(** The precondition under which the specification states the bijection:
    neither "TIME" nor "WAVE" occurs twice (other tags may repeat). *)
Definition no_duplicate_time_wave (axtypes : list string) : Prop :=
  count_occ string_dec axtypes "TIME" <= 1 /\
  count_occ string_dec axtypes "WAVE" <= 1.

(* ===================================================================== *)
(** ** numpy arrays *)
(* ===================================================================== *)

(** An n-dimensional array: its shape and the element stored at each
    multi-index (one position per axis). *)
Record ndarray (A : Type) : Type := mk_ndarray {
  shape : list nat;
  elem : list nat -> A
}.
Arguments mk_ndarray {A} _ _.
Arguments shape {A} _.
Arguments elem {A} _ _.

Definition ndim {A : Type} (a : ndarray A) : nat := length (shape a).

Fixpoint nodupb (l : list nat) : bool :=
  match l with
  | [] => true
  | x :: r => negb (existsb (Nat.eqb x) r) && nodupb r
  end.

(** Position of axis [k] in the list of axes. *)
Fixpoint axis_position (axes : list nat) (k : nat) : nat :=
  match axes with
  | [] => 0
  | x :: r => if Nat.eqb k x then 0 else S (axis_position r k)
  end.

Definition is_axes_permutation (n : nat) (axes : list nat) : bool :=
  Nat.eqb (length axes) n && forallb (fun i => Nat.ltb i n) axes && nodupb axes.

(** The exception numpy raises for axes that are not a permutation of the
    array's axes.  The number of axes is compared with the rank first;
    then the axes are read in order, and the first one that is out of
    bounds, or that was read before, decides the message.  numpy's
    [AxisError] is a subclass of [ValueError]. *)
Fixpoint axes_failure (n : nat) (seen axes : list nat) : exn :=
  match axes with
  | [] => ValueError "axes don't match array"
  | x :: r =>
      if negb (Nat.ltb x n) then
        ValueError (String.concat ""
          ["axis "; pretty x; " is out of bounds for array of dimension "; pretty n])
      else if existsb (Nat.eqb x) seen then
        ValueError "repeated axis in transpose"
      else axes_failure n (x :: seen) r
  end.

Definition transpose_failure (n : nat) (axes : list nat) : exn :=
  if Nat.eqb (length axes) n then axes_failure n [] axes
  else ValueError "axes don't match array".

(** [a.transpose(axes)]: axis [i] of the result is axis [axes[i]] of [a].
    numpy raises [ValueError] unless [axes] lists every axis of [a] once. *)
Definition transpose {A : Type} (a : ndarray A) (axes : list nat) : py (ndarray A) :=
  if is_axes_permutation (ndim a) axes then
    Ok (mk_ndarray
          (map (fun i => nth i (shape a) 0) axes)
          (fun idx => elem a (map (fun k => nth (axis_position axes k) idx 0)
                                  (seq 0 (ndim a)))))
  else raise (transpose_failure (ndim a) axes).

(** One entry of the index list given to [take]: numpy wraps a negative
    entry once and raises [IndexError] outside [-n, n). *)
Definition take_index (n : nat) (i : Z) : py nat :=
  if ((i <? - Z.of_nat n) || (Z.of_nat n <=? i))%Z then raise IndexError
  else Ok (Z.to_nat (if (i <? 0)%Z then i + Z.of_nat n else i)%Z).

Fixpoint take_indices (n : nat) (indices : list Z) : py (list nat) :=
  match indices with
  | [] => Ok []
  | i :: r =>
      do j <- take_index n i;
      do js <- take_indices n r;
      Ok (j :: js)
  end.

(** [a.take(indices, axis=axis)] for a non-negative [axis]. *)
Definition take {A : Type} (a : ndarray A) (indices : list Z) (axis : nat)
  : py (ndarray A) :=
  match shape a !! axis with
  | None => raise IndexError
  | Some n =>
      do js <- take_indices n indices;
      Ok (mk_ndarray
            (<[axis := length js]> (shape a))
            (fun idx => elem a (<[axis := nth (nth axis idx 0) js 0]> idx)))
  end.

(* ===================================================================== *)
(** ** Python slices and [range] *)
(* ===================================================================== *)

(** [slice(start, stop, step)] whose components are of type [A] or [None]. *)
Record pyslice (A : Type) : Type := mk_slice {
  start : option A;
  stop : option A;
  step : option A
}.
Arguments mk_slice {A} _ _ _.
Arguments start {A} _.
Arguments stop {A} _.
Arguments step {A} _.

(** [slice(None, None, None)] *)
Definition slice_all {A : Type} : pyslice A := mk_slice None None None.

(** [slice(a, b)] *)
Definition slice2 {A : Type} (a b : A) : pyslice A := mk_slice (Some a) (Some b) None.

(** The elements of [range(start, stop, step)], [fuel] bounding their
    number. *)
Fixpoint range_from (fuel : nat) (cur stop step : Z) : list Z :=
  match fuel with
  | O => []
  | S f =>
      if (if (0 <? step)%Z then (cur <? stop)%Z else (stop <? cur)%Z)
      then cur :: range_from f (cur + step)%Z stop step
      else []
  end.

(** [range(start, stop, step)]; a zero step raises [ValueError]. *)
Definition py_range (start stop step : Z) : py (list Z) :=
  if (step =? 0)%Z then raise (ValueError "range() arg 3 must not be zero")
  else Ok (range_from (Z.to_nat (Z.abs (stop - start))) start stop step).

(** The positions selected by [l[s]] in a sequence of length [len]
    (CPython's [slice.indices]); a zero step raises [ValueError]. *)
Definition slice_positions (len : nat) (s : pyslice Z) : py (list Z) :=
  let n := Z.of_nat len in
  let st := match step s with Some k => k | None => 1%Z end in
  if (st =? 0)%Z then raise (ValueError "slice step cannot be zero")
  else
    let lower := if (st <? 0)%Z then (-1)%Z else 0%Z in
    let upper := if (st <? 0)%Z then (n - 1)%Z else n in
    let clamp v :=
      if (v <? 0)%Z then Z.max (v + n) lower else Z.min v upper in
    let a := match start s with
             | Some v => clamp v
             | None => if (st <? 0)%Z then upper else lower
             end in
    let b := match stop s with
             | Some v => clamp v
             | None => if (st <? 0)%Z then lower else upper
             end in
    py_range a b st.

(** [l[s]] for a list [l]. *)
Definition py_list_slice {A : Type} (l : list A) (s : pyslice Z) : py (list A) :=
  do ps <- slice_positions (length l) s;
  Ok (omap (fun p => l !! Z.to_nat p) ps).

(* ===================================================================== *)
(** ** Physical units *)
(* ===================================================================== *)

(** The units the examples need.  [u.pix] and [u.pixel] are one object. *)
Inductive Unit : Type :=
| u_pix | u_deg | u_arcmin | u_arcsec | u_Angstrom | u_nm | u_s | u_min.

Inductive physical_type : Type :=
| dimensionless | angle | length_type | time_type.

Definition unit_physical_type (u : Unit) : physical_type :=
  match u with
  | u_pix => dimensionless
  | u_deg | u_arcmin | u_arcsec => angle
  | u_Angstrom | u_nm => length_type
  | u_s | u_min => time_type
  end.

(** Size of one [u] in the reference unit of its physical type. *)
Definition unit_scale (u : Unit) : Q :=
  match u with
  | u_pix => 1
  | u_deg => 1
  | u_arcmin => 1 # 60
  | u_arcsec => 1 # 3600
  | u_Angstrom => 1
  | u_nm => 10
  | u_s => 1
  | u_min => 60
  end.

Definition unit_eqb (a b : Unit) : bool :=
  match a, b with
  | u_pix, u_pix | u_deg, u_deg | u_arcmin, u_arcmin | u_arcsec, u_arcsec
  | u_Angstrom, u_Angstrom | u_nm, u_nm | u_s, u_s | u_min, u_min => true
  | _, _ => false
  end.

Definition physical_type_eqb (a b : physical_type) : bool :=
  match a, b with
  | dimensionless, dimensionless | angle, angle
  | length_type, length_type | time_type, time_type => true
  | _, _ => false
  end.

(** Two units are physically convertible when they measure the same kind
    of quantity. *)
Definition convertible (a b : Unit) : bool :=
  physical_type_eqb (unit_physical_type a) (unit_physical_type b).

(** [(value * unit).to(cunit).value] *)
Definition quantity_to (value : Q) (unit cunit : Unit) : py Q :=
  if convertible unit cunit
  then Ok (value * unit_scale unit / unit_scale cunit)%Q
  else raise UnitConversionError.

(* ===================================================================== *)
(** ** The coordinate system *)
(* ===================================================================== *)

(** [sunpycube.wcs_util.WCS]: the axis descriptors of astropy's [wcs.wcs]
    (in WCS order, the reverse of the array order) and the two flags the
    subclass adds. *)
Record WCS : Type := mk_WCS {
  naxis : nat;
  ctype : list string;
  cunit : list Unit;
  crpix : list Q;
  crval : list Q;
  cdelt : list Q;
  oriented : bool;
  was_augmented : bool
}.

(** Modelled from the spec: [wcs_util.reindex_wcs], which [orient] calls and
    [wcs_util.py] does not define.  The spec says [orient] "produces a
    reindexed coordinate system reflecting the new axis order": axis [i] of
    the result is axis [inds[i]] of [wcs]. *)
Definition reindex_wcs (wcs : WCS) (inds : list nat) : WCS :=
  {| naxis := length inds;
     ctype := map (fun i => nth i (ctype wcs) "") inds;
     cunit := map (fun i => nth i (cunit wcs) u_pix) inds;
     crpix := map (fun i => nth i (crpix wcs) 0%Q) inds;
     crval := map (fun i => nth i (crval wcs) 0%Q) inds;
     cdelt := map (fun i => nth i (cdelt wcs) 0%Q) inds;
     oriented := oriented wcs;
     was_augmented := was_augmented wcs |}.

(* ===================================================================== *)
(** ** [orient] *)
(* ===================================================================== *)

Fixpoint transpose_all {A : Type} (arrs : list (ndarray A)) (axes : list nat)
  : py (list (ndarray A)) :=
  match arrs with
  | [] => Ok []
  | arr :: r =>
      do t <- transpose arr axes;
      do ts <- transpose_all r axes;
      Ok (t :: ts)
  end.

Definition orient {A : Type} (array : ndarray A) (wcs : WCS)
    (extra_arrs : list (ndarray A))
  : py (ndarray A * WCS * list (ndarray A)) :=
  if oriented wcs then Ok (array, wcs, extra_arrs)
  else if negb (Nat.eqb (ndim array) 3) && negb (Nat.eqb (ndim array) 4) then
    raise (ValueError "Input array must be 3- or 4-dimensional")
  else if negb ((Nat.eqb (naxis wcs) 3 && Nat.eqb (ndim array) 3)
                || (Nat.eqb (naxis wcs) 4 && Nat.eqb (ndim array) 4
                    && negb (was_augmented wcs))
                || (Nat.eqb (naxis wcs) 4 && Nat.eqb (ndim array) 3
                    && was_augmented wcs)) then
    raise (ValueError "WCS must have the same dimensions as the array")
  else
    let axtypes := ctype wcs in
    let array_order :=
      if was_augmented wcs then select_order (rev (firstn 3 axtypes))
      else select_order axtypes in
    do result_array <- transpose array array_order;
    let wcs_order := select_order axtypes in
    let result_wcs := reindex_wcs wcs wcs_order in
    let result_wcs :=
      {| naxis := naxis result_wcs; ctype := ctype result_wcs;
         cunit := cunit result_wcs; crpix := crpix result_wcs;
         crval := crval result_wcs; cdelt := cdelt result_wcs;
         oriented := true;
         was_augmented := was_augmented wcs |} in
    do result_extras <- transpose_all extra_arrs array_order;
    Ok (result_array, result_wcs, result_extras).

(* ===================================================================== *)
(** ** Cubes and index expressions *)
(* ===================================================================== *)

(** The uncertainty object of a cube; [reduce_dim] replaces its [array]. *)
Record Uncertainty : Type := mk_Uncertainty {
  array : ndarray Q;
  uncertainty_type : string
}.

(** The fields of [sunpycube.cube.Cube] that the utilities read. *)
Record Cube : Type := mk_Cube {
  data : ndarray Q;
  axes_wcs : WCS;
  mask : option (ndarray bool);
  uncertainty : option Uncertainty;
  meta : list (string * string);
  cube_unit : option Unit
}.

(** The invariant of a cube on its optional arrays: the mask and the
    uncertainty array have the shape of the data. *)
Definition same_shape_fields (cube : Cube) : Prop :=
  (forall m, mask cube = Some m -> shape m = shape (data cube)) /\
  (forall u, uncertainty cube = Some u -> shape (array u) = shape (data cube)).

(** [cube._new_instance(data=..., wcs=..., meta=..., unit=..., errors=...,
    mask=...)]: the cube's reconstruction factory.  [errors] and [mask] are
    keyword arguments that [reduce_dim] passes only when it has them. *)
Definition _new_instance (data : ndarray Q) (wcs : WCS)
    (meta : list (string * string)) (unit : option Unit)
    (errors : option Uncertainty) (mask : option (ndarray bool)) : Cube :=
  mk_Cube data wcs mask errors meta unit.

(** One position of an index tuple, as the classifier sees it: an [int], a
    [slice] or an object of another type.  Of such an object the utilities
    use one thing only, its comparison [o == n] with an [int] (inside
    [item.index(chunk)]): a float or a numpy integer may be equal to an
    [int], and the comparison of other objects may raise. *)
Inductive component : Type :=
| CInt (i : Z)
| CSlice (s : pyslice Z)
| COther (eq_int : Z -> py bool).

(** [c == n] for a component and an [int]; a [slice] is equal to no
    [int]. *)
Definition component_eq (c : component) (n : Z) : py bool :=
  match c with
  | CInt i => Ok (i =? n)%Z
  | CSlice _ => Ok false
  | COther eq_int => eq_int n
  end.

(** The argument of [__getitem__]: an [int], a [slice], or a [tuple] or a
    [list] of components.  These are the indices the utilities tell apart;
    what they do with an index of another type depends on that object's
    own methods and is not described here. *)
Inductive index : Type :=
| IInt (i : Z)
| ISlice (s : pyslice Z)
| ITuple (items : list component)
| IList (items : list component).

Inductive pytype : Type := t_int | t_slice.

Definition isinstance (o : component) (t : pytype) : bool :=
  match o, t with
  | CInt _, t_int => true
  | CSlice _, t_slice => true
  | _, _ => false
  end.

(** [all(isinstance(o, t) for o, t in zip(obj, types))] *)
Fixpoint all_isinstance (obj : list component) (types : list pytype) : bool :=
  match obj, types with
  | o :: obj', t :: types' => isinstance o t && all_isinstance obj' types'
  | _, _ => true
  end.

(** [iter_isinstance(obj, *type_tuples)]; tuples and lists are accepted
    alike. *)
Definition iter_isinstance (obj : index) (type_tuples : list (list pytype)) : bool :=
  match obj with
  | ITuple items | IList items =>
      fold_left
        (fun result types =>
           if negb (Nat.eqb (length items) (length types)) then result
           else result || all_isinstance items types)
        type_tuples false
  | _ => false
  end.

(** [item[i]] for an index expression; an [int] and a [slice] are not
    subscriptable. *)
Definition item_get (item : index) (i : Z) : py component :=
  match item with
  | ITuple items | IList items => py_nth items i
  | IInt _ | ISlice _ => raise TypeError
  end.

(** [list(item)] for an index expression; an [int] and a [slice] are not
    iterable. *)
Definition item_list (item : index) : py (list component) :=
  match item with
  | ITuple items | IList items => Ok items
  | IInt _ | ISlice _ => raise TypeError
  end.

(** An argument handed to a product constructor; [None] is Python's. *)
Definition pyarg : Type := option component.

(** How an indexing operation ends: with the reduced cube itself, or with
    a call whose outcome is the outcome of the operation, a value or an
    exception alike.  The calls go to the product constructors of the cube
    class and, for [data_getitem], to numpy's indexing [cube.data[item]],
    which raises [IndexError] for an integer outside its axis.  In
    [py product], [Error] is an exception raised before that last call. *)
Inductive product : Type :=
| slice_to_map (cube : Cube) (args : list pyarg)
| slice_to_spectrum (cube : Cube) (args : list pyarg)
| slice_to_spectrogram (cube : Cube) (args : list pyarg)
| slice_to_lightcurve (cube : Cube) (args : list pyarg) (kwargs : list (string * pyarg))
| slice_to_cube (hypcube : Cube) (axis : nat) (chunk : Z)
| stays_cube (cube : Cube)
| data_getitem (data : ndarray Q) (item : index).

Definition handle_slice_to_spectrum (cube : Cube) (item : index) : py product :=
  if Nat.eqb (ndim (data cube)) 3 then
    match item with
    | IInt i => Ok (slice_to_spectrum cube [Some (CInt i); None])
    | _ =>
        if iter_isinstance item [[t_int; t_slice; t_int]] then
          do a <- item_get item 0;
          do b <- item_get item 2;
          Ok (slice_to_spectrum cube [Some a; Some b])
        else if iter_isinstance item [[t_slice; t_int; t_int]] then
          do a <- item_get item 1;
          do b <- item_get item 2;
          Ok (slice_to_spectrum cube [Some a; Some b])
        else
          do a <- item_get item 0;
          Ok (slice_to_spectrum cube [Some a; None])
    end
  else
    if iter_isinstance item [[t_int; t_slice; t_int; t_int]] then
      do a <- item_get item 0;
      do b <- item_get item 2;
      do c <- item_get item 3;
      Ok (slice_to_spectrum cube [Some a; Some b; Some c])
    else if iter_isinstance item [[t_int; t_slice; t_int; t_slice];
                                  [t_int; t_slice; t_int]] then
      do a <- item_get item 0;
      do b <- item_get item 2;
      Ok (slice_to_spectrum cube [Some a; Some b; None])
    else if iter_isinstance item [[t_int; t_slice; t_slice; t_int]] then
      do a <- item_get item 0;
      do c <- item_get item 3;
      Ok (slice_to_spectrum cube [Some a; None; Some c])
    else raise UnboundLocalError.

Definition handle_slice_to_lightcurve (cube : Cube) (item : index) : py product :=
  if Nat.eqb (ndim (data cube)) 3 then
    if iter_isinstance item [[t_slice; t_int; t_int]] then
      do a <- item_get item 1;
      do b <- item_get item 2;
      Ok (slice_to_lightcurve cube [Some a; Some b] [])
    else
      do a <- item_get item 1;
      Ok (slice_to_lightcurve cube [Some a] [])
  else
    if iter_isinstance item [[t_slice; t_int; t_int; t_int]] then
      do a <- item_get item 1;
      do b <- item_get item 2;
      do c <- item_get item 3;
      Ok (slice_to_lightcurve cube [Some a; Some b; Some c] [])
    else if iter_isinstance item [[t_slice; t_int; t_slice; t_int]] then
      do a <- item_get item 1;
      do c <- item_get item 3;
      Ok (slice_to_lightcurve cube [Some a] [("x_coord", Some c)])
    else
      do a <- item_get item 1;
      do b <- item_get item 2;
      Ok (slice_to_lightcurve cube [Some a] [("y_coord", Some b)]).

Definition handle_slice_to_map (cube : Cube) (item : index) : py product :=
  if Nat.eqb (ndim (data cube)) 3 then
    match item with
    | IInt i => Ok (slice_to_map cube [Some (CInt i)])
    | _ =>
        do a <- item_get item 0;
        Ok (slice_to_map cube [Some a])
    end
  else
    do a <- item_get item 0;
    do b <- item_get item 1;
    Ok (slice_to_map cube [Some a; Some b]).

(** [[i for i in item if isinstance(i, int)]] *)
Definition int_components (items : list component) : list Z :=
  omap (fun c => match c with CInt i => Some i | _ => None end) items.

(** [item.index(chunk)] for the elements of a tuple or of a list and an
    [int]: the position of the first element that compares equal to
    [chunk], and the exception [missing] when there is none. *)
Fixpoint tuple_index (missing : exn) (items : list component) (chunk : Z) : py nat :=
  match items with
  | [] => raise missing
  | c :: r =>
      do equal <- component_eq c chunk;
      if (equal : bool) then Ok 0
      else do k <- tuple_index missing r chunk; Ok (S k)
  end.

(** [item.index(chunk)] for an index expression. *)
Definition item_index (item : index) (chunk : Z) : py nat :=
  match item with
  | ITuple items =>
      tuple_index (ValueError "tuple.index(x): x not in tuple") items chunk
  | IList items =>
      tuple_index (ValueError (String.append (pretty chunk) " is not in list"))
                  items chunk
  | IInt _ | ISlice _ => raise AttributeError
  end.

Definition handle_slice_to_cube (hypcube : Cube) (item : index) : py product :=
  match item with
  | IInt i => Ok (slice_to_cube hypcube 0 i)
  | _ =>
      do items <- item_list item;
      do chunk <- py_nth (int_components items) 0;
      do axis <- item_index item chunk;
      Ok (slice_to_cube hypcube axis chunk)
  end.

(* ===================================================================== *)
(** ** [reduce_dim] and the two [__getitem__] implementations *)
(* ===================================================================== *)

Section CubeIndexing.

(** astropy's [WCS.slice(view)], applied to the deep copy of the cube's
    coordinate system: an operation of the external coordinate library. *)
Variable wcs_slice : WCS -> list (pyslice Z) -> py WCS.

(** The bounds [reduce_dim] computes from [keys] and the axis extent:
    [start], [stop] and [step] after the defaults and the clamping. *)
Definition reduce_bounds (extent : nat) (keys : pyslice Z) : Z * Z * Z :=
  let start := match start keys with Some v => v | None => 0%Z end in
  let stop := match stop keys with Some v => v | None => Z.of_nat extent end in
  let stop := if (Z.of_nat extent <? stop)%Z then Z.of_nat extent else stop in
  let start := if (start <? 0)%Z then 0%Z else start in
  let step := match step keys with Some v => v | None => 1%Z end in
  (start, stop, step).

(** [[slice(0, shape[0]), ..., slice(0, shape[axis-1]), slice(start, stop)]] *)
Definition wcs_slice_data (shape : list nat) (axis : nat) (start stop : Z)
  : list (pyslice Z) :=
  map (fun n => slice2 0%Z (Z.of_nat n)) (firstn axis shape) ++ [slice2 start stop].

(** [reduce_dim(cube, axis, keys)] for a non-negative [axis]. *)
Definition reduce_dim (cube : Cube) (axis : nat) (keys : pyslice Z) : py Cube :=
  match shape (data cube) !! axis with
  | None => raise IndexError
  | Some extent =>
      let '(start, stop, step) := reduce_bounds extent keys in
      do indices <- py_range start stop step;
      do newdata <- take (data cube) indices axis;
      let newwcs := axes_wcs cube in
      do newwcs <- wcs_slice newwcs (wcs_slice_data (shape (data cube)) axis start stop);
      do errors <-
        match uncertainty cube with
        | Some unc =>
            do arr <- take (array unc) indices axis;
            Ok (Some (mk_Uncertainty arr (uncertainty_type unc)))
        | None => Ok None
        end;
      do mask <-
        match mask cube with
        | Some m => do m' <- take m indices axis; Ok (Some m')
        | None => Ok None
        end;
      Ok (_new_instance newdata newwcs (meta cube) (cube_unit cube) errors mask)
  end.

(** The loop over the positions of a tuple index: every [slice] component
    reduces the cube along its own position. *)
Fixpoint reduce_components (reducedcube : Cube) (i : nat) (items : list component)
  : py Cube :=
  match items with
  | [] => Ok reducedcube
  | CSlice s :: r =>
      do c <- reduce_dim reducedcube i s;
      reduce_components c (S i) r
  | _ :: r => reduce_components reducedcube (S i) r
  end.

(** The reduction both [getitem_3d] and [getitem_4d] start with. *)
Definition reduce_by_item (cube : Cube) (item : index) : py Cube :=
  do reducedcube <- reduce_dim cube 0 slice_all;
  do reducedcube <-
    match item with
    | ITuple items => reduce_components reducedcube 0 items
    | _ => Ok reducedcube
    end;
  match item with
  | ISlice s => reduce_dim reducedcube 0 s
  | _ => Ok reducedcube
  end.

Definition is_int (item : index) : bool :=
  match item with IInt _ => true | _ => false end.

Definition is_slice (item : index) : bool :=
  match item with ISlice _ => true | _ => false end.

(** [isinstance(item, tuple) and not any(isinstance(i, int) for i in item)] *)
Definition tuple_without_int (item : index) : bool :=
  match item with
  | ITuple items => negb (existsb (fun i => isinstance i t_int) items)
  | _ => false
  end.

(** The classification flags of [getitem_3d], in the order the code
    computes them. *)
Record flags_3d : Type := mk_flags_3d {
  to_map : bool;
  to_spectrum : bool;
  to_spectrogram : bool;
  to_lightcurve : bool;
  stay_as_cube : bool
}.

Definition classify_3d (axes : list string) (item : index) : py flags_3d :=
  do axes1 <- py_nth axes 1;
  let wave1 := String.eqb axes1 "WAVE" in
  let slice_to_map :=
    negb wave1 &&
    (is_int item ||
     iter_isinstance item [[t_int; t_slice]; [t_int; t_slice; t_slice]]) in
  do slice_to_spectrum <-
    (if (is_int item ||
         iter_isinstance item [[t_int; t_slice]; [t_int; t_slice; t_slice];
                               [t_int; t_slice; t_int]]) && wave1
     then Ok true
     else
       do axes0 <- py_nth axes 0;
       Ok (String.eqb axes0 "WAVE" &&
           iter_isinstance item [[t_slice; t_int; t_int]]));
  let slice_to_spectrogram :=
    iter_isinstance item [[t_slice; t_slice; t_int]] && wave1 in
  let slice_to_lightcurve :=
    wave1 &&
    iter_isinstance item [[t_slice; t_int; t_int]; [t_slice; t_int];
                          [t_slice; t_int; t_slice]] in
  let stay_as_cube := is_slice item || tuple_without_int item in
  Ok (mk_flags_3d slice_to_map slice_to_spectrum slice_to_spectrogram
                  slice_to_lightcurve stay_as_cube).

Definition getitem_3d (cube : Cube) (item : index) : py product :=
  do f <- classify_3d (ctype (axes_wcs cube)) item;
  do reducedcube <- reduce_by_item cube item;
  if to_map f then handle_slice_to_map reducedcube item
  else if to_spectrum f then handle_slice_to_spectrum reducedcube item
  else if to_spectrogram f then
    do a <- item_get item 2;
    Ok (slice_to_spectrogram reducedcube [Some a])
  else if to_lightcurve f then handle_slice_to_lightcurve reducedcube item
  else if stay_as_cube f then Ok (stays_cube reducedcube)
  else Ok (data_getitem (data cube) item).

(** The classification flags of [getitem_4d]. *)
Record flags_4d : Type := mk_flags_4d {
  to_map4 : bool;
  to_spectrogram4 : bool;
  to_spectrum4 : bool;
  to_cube4 : bool;
  to_lightcurve4 : bool;
  stay_as_hypercube : bool
}.

Definition classify_4d (item : index) : flags_4d :=
  let slice_to_map :=
    iter_isinstance item [[t_int; t_int]; [t_int; t_int; t_slice];
                          [t_int; t_int; t_slice; t_slice]] in
  let slice_to_spectrogram :=
    iter_isinstance item [[t_slice; t_slice; t_int; t_int]] in
  let slice_to_spectrum :=
    iter_isinstance item [[t_int; t_slice; t_int; t_int];
                          [t_int; t_slice; t_int];
                          [t_int; t_slice; t_int; t_slice];
                          [t_int; t_slice; t_slice; t_int]] in
  let slice_to_cube :=
    is_int item ||
    match item with
    | ITuple items => Nat.eqb (length (int_components items)) 1
    | _ => false
    end in
  let slice_to_lightcurve :=
    iter_isinstance item [[t_slice; t_int; t_int; t_int];
                          [t_slice; t_int; t_int];
                          [t_slice; t_int; t_int; t_slice];
                          [t_slice; t_int; t_slice; t_int]] in
  let stay_as_hypercube := is_slice item || tuple_without_int item in
  mk_flags_4d slice_to_map slice_to_spectrogram slice_to_spectrum
              slice_to_cube slice_to_lightcurve stay_as_hypercube.

Definition getitem_4d (cube : Cube) (item : index) : py product :=
  let f := classify_4d item in
  do reducedcube <- reduce_by_item cube item;
  if to_map4 f then handle_slice_to_map reducedcube item
  else if to_spectrum4 f then handle_slice_to_spectrum reducedcube item
  else if to_spectrogram4 f then
    do a <- item_get item 2;
    do b <- item_get item 3;
    Ok (slice_to_spectrogram reducedcube [Some a; Some b])
  else if to_lightcurve4 f then handle_slice_to_lightcurve reducedcube item
  else if to_cube4 f then handle_slice_to_cube reducedcube item
  else if stay_as_hypercube f then Ok (stays_cube reducedcube)
  else Ok (data_getitem (data cube) item).

End CubeIndexing.

(* ===================================================================== *)
(** ** Physical coordinates to pixels *)
(* ===================================================================== *)

(** A slice bound or a point as the caller writes it: a bare number or an
    astropy [Quantity]. *)
Inductive scalar : Type :=
| SNum (v : Q)
| SQuantity (value : Q) (unit : Unit).

(** [int(x)] for a float: truncation towards zero. *)
Definition int_of_Q (x : Q) : Z :=
  if Qle_bool 0 x then Qfloor x else Qceiling x.

(** [np.round(x)]: to the nearest integer, halves to the even one. *)
Definition np_round (x : Q) : Z :=
  let f := Qfloor x in
  let r := (x - inject_Z f)%Q in
  match Qcompare r (1 # 2) with
  | Lt => f
  | Gt => (f + 1)%Z
  | Eq => if Z.even f then f else (f + 1)%Z
  end.

(** [int(np.round(num / den))] for floats: a zero [den] gives a NaN or an
    infinity, which [int] refuses. *)
Definition int_round_div (num den : Q) : py Z :=
  if Qeq_bool den 0 then
    if Qeq_bool num 0 then raise (ValueError "cannot convert float NaN to integer")
    else raise OverflowError
  else Ok (np_round (num / den)).

(** The WCS axis of array axis [axis]. *)
Definition wcs_axis_of (wcs : WCS) (axis : Z) (_source : string) : Z :=
  if String.eqb _source "cube" then
    if was_augmented wcs then (-2 - axis)%Z else (-1 - axis)%Z
  else (1 - axis)%Z.

Definition convert_point (value : option scalar) (unit : option Unit) (wcs : WCS)
    (axis : Z) (_source : string) : py (option Z) :=
  match value with
  | None => Ok None
  | Some v =>
      if match unit with None => true | Some u => unit_eqb u u_pix end then
        match v with
        | SNum x => Ok (Some (int_of_Q x))
        | SQuantity _ _ => raise TypeError
        end
      else
        match v, unit with
        | SQuantity _ _, _ => raise AttributeError
        | SNum x, Some u =>
            let wcsaxis := wcs_axis_of wcs axis _source in
            do cunit <- py_nth (cunit wcs) wcsaxis;
            do crpix <- py_nth (crpix wcs) wcsaxis;
            do crval <- py_nth (crval wcs) wcsaxis;
            do cdelt <- py_nth (cdelt wcs) wcsaxis;
            do point <- quantity_to x u cunit;
            if Qeq_bool cdelt 0 then
              if Qeq_bool (point - crval) 0
              then raise (ValueError "cannot convert float NaN to integer")
              else raise OverflowError
            else Ok (Some (np_round (crpix + (point - crval) / cdelt)))
        | SNum _, None => Ok None
        end
  end.

(** The loop of [_convert_slice] over [start], [stop] and [step]: the unit
    found so far and the magnitudes collected. *)
Fixpoint collect_units (steps : list (option scalar)) (unit : option Unit)
  : py (option Unit * list (option Q)) :=
  match steps with
  | [] => Ok (unit, [])
  | Some (SQuantity v u) :: r =>
      if match unit with Some u0 => negb (unit_eqb u u0) | None => false end then
        raise (CubeError 5 "Only one unit per axis may be given")
      else
        do rest <- collect_units r (Some u);
        Ok (fst rest, Some v :: snd rest)
  | Some (SNum v) :: r =>
      do rest <- collect_units r unit;
      Ok (fst rest, Some v :: snd rest)
  | None :: r =>
      do rest <- collect_units r unit;
      Ok (fst rest, None :: snd rest)
  end.

Definition as_scalar (z : option Z) : option scalar :=
  match z with Some v => Some (SNum (inject_Z v)) | None => None end.

Definition _convert_slice (item : pyslice scalar) (wcs : WCS) (axis : Z)
    (_source : string) : py (pyslice scalar) :=
  let wcs_ax := wcs_axis_of wcs axis _source in
  let steps := [start item; stop item; step item] in
  do found <- collect_units steps None;
  match fst found with
  | None => Ok item
  | Some unit =>
      let values := snd found in
      do delta <-
        match nth 2 values None with
        | None => Ok None
        | Some v =>
            do cunit <- py_nth (cunit wcs) wcs_ax;
            do cdelt <- py_nth (cdelt wcs) wcs_ax;
            do step_c <- quantity_to v unit cunit;
            do d <- int_round_div step_c cdelt;
            Ok (Some d)
        end;
      do start <-
        match nth 0 values None with
        | None => Ok None
        | Some v => convert_point (Some (SNum v)) (Some unit) wcs axis _source
        end;
      do end_ <-
        match nth 1 values None with
        | None => Ok None
        | Some v => convert_point (Some (SNum v)) (Some unit) wcs axis _source
        end;
      Ok (mk_slice (as_scalar start) (as_scalar end_) (as_scalar delta))
  end.

(* ===================================================================== *)
(** ** Indexing a cube sequence as one cube *)
(* ===================================================================== *)

(** [np.cumsum] of a list of extents. *)
Fixpoint cumsum_from (acc : Z) (lengths : list nat) : list Z :=
  match lengths with
  | [] => []
  | n :: r => (acc + Z.of_nat n)%Z :: cumsum_from (acc + Z.of_nat n)%Z r
  end.

Definition cumsum (lengths : list nat) : list Z := cumsum_from 0 lengths.

(** [np.where(cumul_cube_lengths <= cube_like_index)[0]]: the positions
    whose cumulative length is at most the index, in increasing order. *)
Fixpoint where_le (cumul : list Z) (x : Z) (pos : Z) : list Z :=
  match cumul with
  | [] => []
  | c :: r =>
      if (c <=? x)%Z then pos :: where_le r x (pos + 1)%Z
      else where_le r x (pos + 1)%Z
  end.

Definition _convert_cube_like_index_to_sequence_indices
    (cube_like_index : Z) (cumul_cube_lengths : list Z) : py (Z * Z) :=
  do first <- py_nth cumul_cube_lengths 0;
  if (cube_like_index <? first)%Z then Ok (0%Z, cube_like_index)
  else
    do sequence_index <- py_nth (where_le cumul_cube_lengths cube_like_index 0) (-1);
    do last <- py_nth cumul_cube_lengths (-1);
    do cube_index <-
      (if (last - 1 <? cube_like_index)%Z then Ok (first - 1)%Z
       else
         do offset <- py_nth cumul_cube_lengths sequence_index;
         Ok (cube_like_index - offset)%Z);
    let sequence_index :=
      if (sequence_index <? Z.of_nat (length cumul_cube_lengths) - 1)%Z
      then (sequence_index + 1)%Z else sequence_index in
    Ok (sequence_index, cube_index).

(** The second component returned for a slice: one slice when the selection
    stays inside a single cube, a list of slices when it crosses cubes. *)
Inductive cube_slices : Type :=
| one_slice (s : pyslice Z)
| slice_list (l : list (pyslice Z)).

Definition _convert_cube_like_slice_to_sequence_slices
    (cube_like_slice : pyslice Z) (cumul_cube_lengths : list Z)
  : py (pyslice Z * cube_slices) :=
  do start_pair <-
    match start cube_like_slice with
    | Some v => _convert_cube_like_index_to_sequence_indices v cumul_cube_lengths
    | None => _convert_cube_like_index_to_sequence_indices 0 cumul_cube_lengths
    end;
  let '(sequence_start_index, cube_start_index) := start_pair in
  do stop_pair <-
    match stop cube_like_slice with
    | Some v => _convert_cube_like_index_to_sequence_indices v cumul_cube_lengths
    | None =>
        do last <- py_nth cumul_cube_lengths (-1);
        _convert_cube_like_index_to_sequence_indices last cumul_cube_lengths
    end;
  let '(sequence_stop_index, cube_stop_index) := stop_pair in
  do stop_pair <-
    match stop cube_like_slice with
    | Some v =>
        do last <- py_nth cumul_cube_lengths (-1);
        if negb (v <? last)%Z then Ok ((sequence_stop_index + 1)%Z, 0%Z)
        else Ok (sequence_stop_index, cube_stop_index)
    | None => Ok (sequence_stop_index, cube_stop_index)
    end;
  let '(sequence_stop_index, cube_stop_index) := stop_pair in
  if negb (sequence_start_index =? sequence_stop_index)%Z then
    do first_end <- py_nth cumul_cube_lengths sequence_start_index;
    let cube_slice :=
      [mk_slice (Some cube_start_index) (Some first_end) (step cube_like_slice)] in
    if negb (cube_stop_index =? 0)%Z then
      Ok (mk_slice (Some sequence_start_index) (Some (sequence_stop_index + 1)%Z)
                   (step cube_like_slice),
          slice_list (cube_slice ++
                      [mk_slice (Some 0%Z) (Some cube_stop_index) (step cube_like_slice)]))
    else
      Ok (mk_slice (Some sequence_start_index) (Some sequence_stop_index)
                   (step cube_like_slice),
          slice_list cube_slice)
  else
    Ok (mk_slice (Some sequence_start_index) (Some (sequence_stop_index + 1)%Z)
                 (step cube_like_slice),
        one_slice (mk_slice (Some cube_start_index) (Some cube_stop_index)
                            (step cube_like_slice))).

(** One position of the index that [index_sequence_as_cube] builds for the
    whole sequence: besides what the caller wrote, a position can hold the
    list of per-cube slices. *)
Inductive seq_component : Type :=
| QInt (i : Z)
| QSlice (s : pyslice Z)
| QSlices (l : list (pyslice Z))
| QOther.

Definition of_component (c : component) : seq_component :=
  match c with
  | CInt i => QInt i
  | CSlice s => QSlice s
  | COther _ => QOther
  end.

Definition of_cube_slices (c : cube_slices) : seq_component :=
  match c with
  | one_slice s => QSlice s
  | slice_list l => QSlices l
  end.

(** [l[i] = x] for a Python list. *)
Definition py_set_nth {A : Type} (l : list A) (i : Z) (x : A) : py (list A) :=
  let n := Z.of_nat (length l) in
  let j := if (i <? 0)%Z then (i + n)%Z else i in
  if ((j <? 0) || (n <=? j))%Z then raise IndexError
  else Ok (<[Z.to_nat j := x]> l).

(** [[c.data.shape[common_axis] for c in cubesequence.data]] *)
Fixpoint common_axis_lengths (cubes : list Cube) (common_axis : Z) : py (list nat) :=
  match cubes with
  | [] => Ok []
  | c :: r =>
      do n <- py_nth (shape (data c)) common_axis;
      do ns <- common_axis_lengths r common_axis;
      Ok (n :: ns)
  end.

(** The fields of [sunpycube.CubeSequence] that the utilities read. *)
Record CubeSequence : Type := mk_CubeSequence {
  seq_data : list Cube;
  seq_meta : list (string * string);
  common_axis : Z
}.

(** The argument of the sequence's [__getitem__]. *)
Inductive seq_index : Type :=
| seq_int (i : Z)
| seq_slice (s : pyslice Z)
| seq_tuple (l : list seq_component)
| seq_other.

Section SequenceAsCube.

(** The sequence's own indexing [cubesequence[...]], an operation of the
    container class, and the rank [len(c.data.shape)] of what it returns. *)
Variable R : Type.
Variable sequence_getitem : CubeSequence -> seq_index -> py R.
Variable data_rank : R -> py nat.

(** The check that the item is long enough to include the common axis
    fails: the message is formatted with the common axis and with the rank
    of [cubesequence[0]]. *)
Definition item_too_short {A : Type} (cubesequence : CubeSequence) : py A :=
  do first <- sequence_getitem cubesequence (seq_int 0);
  do rank <- data_rank first;
  raise (ValueError (String.concat ""
    ["Input item not long enough to include common axis.";
     "Must have length of of between "; pretty (common_axis cubesequence);
     " and "; pretty rank; " inclusive."])).

(** [index_sequence_as_cube]: the index for the whole sequence is built and
    handed to [cubesequence[...]], whose outcome is returned. *)
Definition index_sequence_as_cube (cubesequence : CubeSequence) (item : index)
  : py R :=
  let common := common_axis cubesequence in
  do lengths <- common_axis_lengths (seq_data cubesequence) common;
  let cumul_cube_lengths := cumsum lengths in
  do converted <-
    match item with
    | IInt i =>
        if negb (common =? 0)%Z then
          raise (ValueError (String.append
            "Input can only be indexed with an int if CubeSequence's common axis is 0. common axis = "
            (pretty common)))
        else
          do r <- _convert_cube_like_index_to_sequence_indices i cumul_cube_lengths;
          Ok (QInt (fst r), QInt (snd r), [QInt i])
    | ISlice s =>
        if negb (common =? 0)%Z then
          raise (ValueError (String.append
            "Input can only be sliced with a single slice if CubeSequence's common axis is 0. common axis = "
            (pretty common)))
        else
          do r <- _convert_cube_like_slice_to_sequence_slices s cumul_cube_lengths;
          Ok (QSlice (fst r), of_cube_slices (snd r), [QSlice s])
    | ITuple items | IList items =>
        do at_common <- py_nth items common;
        match at_common with
        | CInt i =>
            if (Z.of_nat (length items) <? common)%Z then item_too_short cubesequence
            else
              do r <- _convert_cube_like_index_to_sequence_indices i cumul_cube_lengths;
              Ok (QInt (fst r), QInt (snd r), map of_component items)
        | CSlice s =>
            if (Z.of_nat (length items) <? common)%Z then item_too_short cubesequence
            else
              do r <- _convert_cube_like_slice_to_sequence_slices s cumul_cube_lengths;
              Ok (QSlice (fst r), of_cube_slices (snd r), map of_component items)
        | COther _ => raise (ValueError "Invalid index/slice input.")
        end
    end;
  let '(sequence_index, cube_index, item_list) := converted in
  do item_list <- py_set_nth item_list common cube_index;
  sequence_getitem cubesequence (seq_tuple (sequence_index :: item_list)).

End SequenceAsCube.

(** What [cube[key]] is asked for by [get_cube_from_sequence]: one position
    or a tuple of positions. *)
Inductive cube_key : Type :=
| key_one (c : seq_component)
| key_tuple (l : list seq_component).

Section SequenceGetitem.

(** The items of a sequence and their own [__getitem__] (the cube class). *)
Variable T : Type.
Variable cube_getitem : T -> cube_key -> py T.

(** What [get_cube_from_sequence] returns: one item, or the sequence
    rebuilt by [cubesequence._new_instance] around new data. *)
Inductive seq_result : Type :=
| got_item (c : T)
| got_sequence (data : list T).

(** The key built from [item[1::]] or [item[2::]]: its only position when
    it has exactly one, the whole tuple otherwise. *)
Definition key_of_rest (rest : list seq_component) : cube_key :=
  match rest with
  | [c] => key_one c
  | _ => key_tuple rest
  end.

Fixpoint getitem_each (data : list T) (key : cube_key) : py (list T) :=
  match data with
  | [] => Ok []
  | cube :: r =>
      do c <- cube_getitem cube key;
      do cs <- getitem_each r key;
      Ok (c :: cs)
  end.

(** [item[1][k]]: the second position must hold the list of per-cube
    slices. *)
Definition local_slice (rest : list seq_component) (k : Z) : py (pyslice Z) :=
  do second <- py_nth rest 0;
  match second with
  | QSlices l => py_nth l k
  | _ => raise TypeError
  end.

(** [len(item[1])] *)
Definition local_count (rest : list seq_component) : nat :=
  match rest with
  | QSlices l :: _ => length l
  | _ => 0
  end.

(** The second definition of [get_cube_from_sequence] in the module, the
    one in force once the module is loaded. *)
Definition get_cube_from_sequence (data : list T) (item : seq_index)
  : py seq_result :=
  match item with
  | seq_int i =>
      do cube <- py_nth data i;
      Ok (got_item cube)
  | seq_slice s =>
      do data <- py_list_slice data s;
      Ok (got_sequence data)
  | seq_tuple [] => raise IndexError
  | seq_tuple (QInt i :: rest) =>
      do cube <- py_nth data i;
      do r <- cube_getitem cube (key_of_rest rest);
      Ok (got_item r)
  | seq_tuple (QSlice s :: rest) =>
      do data <- py_list_slice data s;
      do first <- py_nth data 0;
      do first_slice <- local_slice rest 0;
      do first <- cube_getitem first (key_one (QSlice first_slice));
      do data <- py_set_nth data 0 first;
      do data <-
        (if Nat.eqb (local_count rest) 2 then
           do last <- py_nth data (-1);
           do last_slice <- local_slice rest (-1);
           do last <- cube_getitem last (key_one (QSlice last_slice));
           py_set_nth data (-1) last
         else Ok data);
      do data <- getitem_each data (key_of_rest (tl rest));
      Ok (got_sequence data)
  | _ => raise UnboundLocalError
  end.

End SequenceGetitem.

(* ===================================================================== *)
(** ** [wcs_util]: headers and augmentation *)
(* ===================================================================== *)

(** A header value: a number or a string. *)
Inductive hval : Type :=
| HInt (n : Z)
| HStr (s : string).

(** Header objects are mutable dictionaries.  They live in a store, a
    location being a position in it; [deepcopy] allocates a new location
    holding the same keys and values. *)
Abbreviation loc := nat.

Definition deepcopy (st : list (gmap string hval)) (h : gmap string hval)
  : loc * list (gmap string hval) :=
  (length st, st ++ [h]).

(** How astropy answers when asked to build a coordinate system from a
    header and to name its axis types: it succeeds, or it raises
    [InconsistentAxisTypesError] with a message. *)
Inductive resolution : Type :=
| resolved
| inconsistent (message : string).

(** [re.search(needle, s)] for a needle without special characters. *)
Fixpoint re_search (needle s : string) : bool :=
  String.prefix needle s ||
  match s with
  | EmptyString => false
  | String _ r => re_search needle r
  end.

Fixpoint string_drop (n : nat) (s : string) : string :=
  match n, s with
  | O, _ => s
  | S _, EmptyString => EmptyString
  | S m, String _ r => string_drop m r
  end.

(** The longest prefix without a comma. *)
Fixpoint until_comma (s : string) : string :=
  match s with
  | EmptyString => EmptyString
  | String c r => if Ascii.eqb c "," then EmptyString else String c (until_comma r)
  end.

(** [re.findall(r'expected [^,]+', message)[0]], or [None] when the list
    is empty. *)
Fixpoint first_expected (message : string) : option string :=
  match message with
  | EmptyString => None
  | String _ r =>
      if String.prefix "expected " message then
        match until_comma (string_drop 9 message) with
        | EmptyString => first_expected r
        | run => Some (String.append "expected " run)
        end
      else first_expected r
  end.

(** The per-axis keywords [_augment] writes for the synthetic axis. *)
Definition new_wcs_axes_params : list (string * hval) :=
  [("CRPIX", HInt 0); ("CDELT", HInt 1); ("CRVAL", HInt 0);
   ("CNAME", HStr "redundant axis"); ("CTYPE", HStr "HPLN-TAN");
   ("CROTA", HInt 0); ("CUNIT", HStr "deg")].

(** [for param in new_wcs_axes_params: newheader[param + axis] = attr] *)
Definition set_axis_params (axis : string) (newheader : gmap string hval)
  : gmap string hval :=
  fold_left (fun h p => <[String.append (fst p) axis := snd p]> h) new_wcs_axes_params newheader.

(** [str(max(newheader.get('NAXIS', 0), naxis) + 1)], with the ordering of
    Python 2, the language of the module: [None] sorts below every number
    and a string above, and adding one to a string raises [TypeError]. *)
Definition synthetic_axis (newheader : gmap string hval) (naxis : option Z)
  : py string :=
  match default (HInt 0) (newheader !! "NAXIS"), naxis with
  | HInt n, Some k => Ok (pretty (Z.max n k + 1)%Z)
  | HInt n, None => Ok (pretty (n + 1)%Z)
  | HStr _, _ => raise TypeError
  end.

(** What the instance holds once [WCS.__init__] returns: its two flags and
    the arguments passed on to astropy's constructor. *)
Record wcs_object : Type := mk_wcs_object {
  obj_oriented : bool;
  obj_was_augmented : bool;
  obj_header : option loc;
  obj_naxis : option Z
}.

Section WcsUtil.

(** astropy's [wcs.WCS(header=...)] followed by [get_axis_types()]. *)
Variable resolve : gmap string hval -> resolution.

Definition _needs_augmenting (header : option (gmap string hval)) : bool :=
  match header with
  | None => false
  | Some h =>
      match resolve h with
      | inconsistent message => re_search "Unmatched celestial axes" message
      | resolved => false
      end
  end.

(** [WCS._augment(header, naxis)]: the header object is passed by
    reference; the value is the location of the header returned, with the
    store as the call leaves it. *)
Definition _augment (header : loc) (naxis : option Z)
    (st : list (gmap string hval)) : py (loc * list (gmap string hval)) :=
  match st !! header with
  | None => raise AttributeError
  | Some h =>
      let '(newheader, st) := deepcopy st h in
      do axis <- synthetic_axis h naxis;
      let st := alter (set_axis_params axis) newheader st in
      match resolve (default ∅ (st !! newheader)) with
      | inconsistent message =>
          match first_expected message with
          | None => raise IndexError
          | Some found =>
              let projection := string_drop 9 found in
              let st := alter (<[String.append "CTYPE" axis := HStr projection]>) header st in
              Ok (newheader, st)
          end
      | resolved => Ok (newheader, st)
      end
  end.

(** [WCS.__init__(self, header, naxis)], ending with the call to astropy's
    constructor on the header and axis count chosen. *)
Definition WCS_init (header : option loc) (naxis : option Z)
    (st : list (gmap string hval)) : py (wcs_object * list (gmap string hval)) :=
  let content := match header with Some l => st !! l | None => None end in
  do chosen <-
    (if _needs_augmenting content then
       match header with
       | Some l =>
           do r <- _augment l naxis st;
           Ok (true, Some (fst r), (fun k => k + 1)%Z <$> naxis, snd r)
       | None => raise AttributeError
       end
     else Ok (false, header, naxis, st));
  let '(augmented, header, naxis, st) := chosen in
  match resolve (default ∅ (match header with Some l => st !! l | None => None end)) with
  | inconsistent message => raise (InconsistentAxisTypesError message)
  | resolved => Ok (mk_wcs_object false augmented header naxis, st)
  end.

End WcsUtil.

(* ===================================================================== *)
(** ** Example data *)
(* ===================================================================== *)

(** A stand-in for astropy's resolution, enough to run the examples: the
    helioprojective tags among [CTYPE1] .. [CTYPE9] must come as one
    longitude and one latitude, or not at all. *)
Definition example_resolve (h : gmap string hval) : resolution :=
  let tags :=
    omap (fun i : nat =>
            match h !! String.append "CTYPE" (pretty i) with
            | Some (HStr s) =>
                if String.eqb s "HPLN-TAN" || String.eqb s "HPLT-TAN"
                then Some s else None
            | _ => None
            end) (seq 1 9) in
  match tags with
  | [] => resolved
  | [_] => inconsistent "Unmatched celestial axes."
  | [a; b] =>
      if String.eqb a b then
        inconsistent
          (String.concat ""
             ["Inconsistent coordinate types (expected ";
              if String.eqb a "HPLN-TAN" then "HPLT-TAN" else "HPLN-TAN";
              ", got "; b; ")."])
      else resolved
  | _ => inconsistent "Too many celestial axes."
  end.

(** A header with a single helioprojective axis. *)
Definition example_header : gmap string hval :=
  list_to_map
    [("NAXIS", HInt 3);
     ("CTYPE1", HStr "HPLN-TAN"); ("CTYPE2", HStr "WAVE"); ("CTYPE3", HStr "TIME");
     ("CUNIT1", HStr "deg"); ("CUNIT2", HStr "Angstrom"); ("CUNIT3", HStr "s")].

(** A stand-in for astropy's [WCS.slice] on slices without a step: at most
    one slice per axis, each moving the reference pixel of its axis (in
    array order) by its start. *)
Fixpoint shift_crpix (crpix : list Q) (view : list (pyslice Z)) : list Q :=
  match view with
  | [] => crpix
  | s :: r =>
      let k := length crpix - 1 - (length view - 1) in
      let shifted :=
        match start s, crpix !! k with
        | Some v, Some p => <[k := (p - inject_Z v)%Q]> crpix
        | _, _ => crpix
        end in
      shift_crpix shifted r
  end.

Definition example_wcs_slice (wcs : WCS) (view : list (pyslice Z)) : py WCS :=
  if Nat.ltb (naxis wcs) (length view) then
    raise (ValueError "Must have # of slices <= # of WCS axes")
  else
    Ok {| naxis := naxis wcs; ctype := ctype wcs; cunit := cunit wcs;
          crpix := shift_crpix (crpix wcs) (rev view);
          crval := crval wcs; cdelt := cdelt wcs;
          oriented := oriented wcs; was_augmented := was_augmented wcs |}.

Definition example_wcs (types : list string) (augmented : bool) : WCS :=
  {| naxis := length types;
     ctype := types;
     cunit := map (fun _ => u_deg) types;
     crpix := map (fun _ => 0%Q) types;
     crval := map (fun _ => 0%Q) types;
     cdelt := map (fun _ => 1%Q) types;
     oriented := false;
     was_augmented := augmented |}.

(** An array of the given shape holding, at each multi-index, the number
    whose decimal digits are its positions: 123 at [[1; 2; 3]]. *)
Definition example_array (shp : list nat) : ndarray Q :=
  mk_ndarray shp
    (fun idx => inject_Z (Z.of_nat (fold_left (fun acc i => acc * 10 + i) idx 0))).

Definition example_cube (types : list string) (shp : list nat) : Cube :=
  mk_Cube (example_array shp) (example_wcs types false) None None [] None.

(* ===================================================================== *)
(** ** Further functions of [cube_utils] *)
(* ===================================================================== *)

(** The priority [select_order] gives an axis type: the first component of
    its sort key. *)
Definition axis_priority (axtypes : list string) (t : string) : nat :=
  fst (order_entry axtypes t).

(** Entries ordered by priority alone. *)
Definition by_priority (a b : nat * string) : Prop := fst a <= fst b.

(** The axis types [select_order] moves to the front. *)
Definition is_prioritised (t : string) : bool :=
  String.eqb t "TIME" || String.eqb t "UTC" || String.eqb t "WAVE"
  || String.eqb t "HPLT-TAN".

(** [t] is [a] with its axes rearranged by [order], as numpy's [transpose]
    does it: axis [i] of [t] is axis [order[i]] of [a], so the element of
    [t] at a multi-index is the element of [a] at the multi-index whose
    coordinate on axis [order[i]] is coordinate [i] of the first. *)
Definition is_transposed {A : Type} (order : list nat) (a t : ndarray A) : Prop :=
  shape t = map (fun i => nth i (shape a) 0) order /\
  forall idx, exists source,
    elem t idx = elem a source /\
    length source = ndim a /\
    forall i, i < length order -> nth (nth i order 0) source 0 = nth i idx 0.

(** A coordinate system with its two flags set, as [orient] sets them on
    the reindexed one. *)
Definition with_flags (w : WCS) (is_oriented augmented : bool) : WCS :=
  {| naxis := naxis w; ctype := ctype w; cunit := cunit w;
     crpix := crpix w; crval := crval w; cdelt := cdelt w;
     oriented := is_oriented; was_augmented := augmented |}.

(** How many of the flags are set. *)
Definition count_true (flags : list bool) : nat :=
  length (List.filter (fun b : bool => b) flags).

(** [pixelize(coord, wcs, axis)]: "shorthand for convert_point". *)
Definition pixelize (coord : option scalar) (wcs : WCS) (axis : Z) : py (option Z) :=
  let unit :=
    match coord with
    | Some (SQuantity _ u) => Some u
    | _ => None
    end in
  convert_point coord unit wcs axis "cube".

(** One position of the index given to [pixelize_slice], and of the index
    it returns: a slice whose bounds may carry units, a [Quantity], an
    [int], [None] or anything else. *)
Inductive pix_component : Type :=
| PSlice (s : pyslice scalar)
| PQuantity (value : Q) (unit : Unit)
| PInt (i : Z)
| PNone
| POther.

(** The argument of [pixelize_slice]: a tuple or a single value. *)
Inductive pix_item : Type :=
| pix_tuple (l : list pix_component)
| pix_single (c : pix_component).

(** The value [convert_point] returns, as a position of the result. *)
Definition of_pixel (p : option Z) : pix_component :=
  match p with Some i => PInt i | None => PNone end.

(** The loop of [pixelize_slice] over the positions of a tuple, from
    position [axis] on. *)
Fixpoint pixelize_positions (l : list pix_component) (wcs : WCS) (axis : Z)
    (_source : string) : py (list pix_component) :=
  match l with
  | [] => Ok []
  | c :: r =>
      do c' <-
        match c with
        | PSlice s =>
            do s' <- _convert_slice s wcs axis _source;
            Ok (PSlice s')
        | PQuantity v u =>
            do p <- convert_point (Some (SNum v)) (Some u) wcs axis _source;
            Ok (of_pixel p)
        | _ => Ok c
        end;
      do r' <- pixelize_positions r wcs (axis + 1)%Z _source;
      Ok (c' :: r')
  end.

Definition pixelize_slice (item : pix_item) (wcs : WCS) (_source : string)
  : py pix_item :=
  match item with
  | pix_tuple l =>
      do result <- pixelize_positions l wcs 0 _source;
      Ok (pix_tuple result)
  | pix_single (PQuantity v u) =>
      do p <- convert_point (Some (SNum v)) (Some u) wcs 0 "cube";
      Ok (pix_single (of_pixel p))
  | pix_single (PSlice s) =>
      do s' <- _convert_slice s wcs 0 _source;
      Ok (pix_single (PSlice s'))
  | _ => Ok item
  end.

(** The units of the [Quantity] bounds of a slice, in the order [start],
    [stop], [step]. *)
Definition quantity_units (item : pyslice scalar) : list Unit :=
  omap (fun c => match c with Some (SQuantity _ u) => Some u | _ => None end)
       [start item; stop item; step item].

(** A cube with a mask and an uncertainty, for the examples. *)
Definition example_full_cube : Cube :=
  mk_Cube (example_array [10; 4; 5])
          (example_wcs ["WAVE"; "HPLT-TAN"; "HPLN-TAN"] false)
          (Some (mk_ndarray [10; 4; 5] (fun idx => Nat.even (list_sum idx))))
          (Some (mk_Uncertainty (example_array [10; 4; 5]) "std"))
          [("instrument", "example")] (Some u_s).

(** Two arrays agree at every multi-index that is valid on [axis] for an
    extent of [extent]. *)
Definition agree_on_axis {A : Type} (a b : ndarray A) (axis extent : nat) : Prop :=
  forall idx i, idx !! axis = Some i -> i < extent -> elem a idx = elem b idx.

(** All the elements of a list are equal. *)
Definition all_same {A : Type} (l : list A) : Prop :=
  forall a b, In a l -> In b l -> a = b.

(** The units met by the loop of [_convert_slice]: the unit found so far,
    then those of the [Quantity] steps still to come. *)
Definition units_met (unit : option Unit) (steps : list (option scalar)) : list Unit :=
  match unit with Some u => [u] | None => [] end ++
  omap (fun c => match c with Some (SQuantity _ u) => Some u | _ => None end) steps.

(** A position of an index that carries no unit: anything but a [Quantity]
    or a slice with a [Quantity] bound. *)
Definition unitless (c : pix_component) : bool :=
  match c with
  | PSlice s =>
      match quantity_units s with [] => true | _ => false end
  | PQuantity _ _ => false
  | _ => true
  end.

(** Where cube [k] of a sequence starts on the common axis: the sum of the
    extents of the cubes before it. *)
Definition cube_offset (lengths : list nat) (k : nat) : Z :=
  Z.of_nat (list_sum (firstn k lengths)).

(** A call whose failures all satisfy [P]. *)
Definition raises_only {A : Type} (P : exn -> Prop) (c : py A) : Prop :=
  forall e, c = Error e -> P e.

(** The failures [index_sequence_as_cube] can end in: a position out of
    range, an index of an unsupported kind, or one of its three input
    checks that can fire. *)
Definition sequence_index_failure (e : exn) : Prop :=
  e = IndexError \/ e = TypeError \/
  e = ValueError "Input can only be indexed with an int if CubeSequence's common axis is 0." \/
  e = ValueError "Input can only be sliced with a single slice if CubeSequence's common axis is 0." \/
  e = ValueError "Invalid index/slice input.".

(* ===================================================================== *)
(** * Properties *)
(* ===================================================================== *)

(* ===================================================================== *)
(** ** [select_order] *)
(* ===================================================================== *)

Example select_order_docstring :
  select_order ["HPLN-TAN"; "TIME"; "WAVE"] = [1; 2; 0].
Proof. reflexivity. Qed.

Example select_order_iris :
  select_order ["HPLN-TAN"; "HPLT-TAN"; "WAVE"; "TIME"] = [3; 2; 1; 0].
Proof. reflexivity. Qed.

(* --------------------------------------------------------------------- *)
(** *** Facts about [list_index] and the sort *)
(* --------------------------------------------------------------------- *)

Lemma sort_insert_perm x l : Permutation (sort_insert x l) (x :: l).
Proof.
  induction l as [|y r IH]; simpl; [reflexivity|].
  destruct (entry_leb x y); [reflexivity|].
  rewrite IH. apply perm_swap.
Qed.

Lemma list_sort_perm l : Permutation (list_sort l) l.
Proof.
  induction l as [|x r IH]; simpl; [reflexivity|].
  rewrite sort_insert_perm. now rewrite IH.
Qed.

Lemma order_entry_snd axtypes t : snd (order_entry axtypes t) = t.
Proof.
  unfold order_entry.
  destruct (_ || _); [reflexivity|].
  destruct (String.eqb t "WAVE"); [reflexivity|].
  destruct (String.eqb t "HPLT-TAN"); reflexivity.
Qed.

Lemma select_order_perm axtypes :
  Permutation (select_order axtypes) (map (list_index axtypes) axtypes).
Proof.
  unfold select_order.
  rewrite <- (map_map snd (list_index axtypes)).
  apply Permutation_map.
  rewrite list_sort_perm, map_map.
  erewrite map_ext; [rewrite map_id; reflexivity|].
  intros t. apply order_entry_snd.
Qed.

Lemma list_index_app_fresh pre suf t :
  ~ In t pre -> list_index (pre ++ suf) t = length pre + list_index suf t.
Proof.
  induction pre as [|x pre IH]; simpl; intros Hnot; [reflexivity|].
  destruct (String.eqb_spec t x) as [->|_]; [tauto|].
  rewrite IH; tauto.
Qed.

Lemma list_index_head x r : list_index (x :: r) x = 0.
Proof. simpl. now rewrite String.eqb_refl. Qed.

Lemma map_list_index_suffix pre suf :
  List.NoDup (pre ++ suf) ->
  map (list_index (pre ++ suf)) suf = seq (length pre) (length suf).
Proof.
  revert pre. induction suf as [|x suf IH]; intros pre Hnd; [reflexivity|].
  simpl. f_equal.
  - rewrite list_index_app_fresh, list_index_head; [lia|].
    apply NoDup_remove_2 in Hnd. intros Hin. apply Hnd, in_or_app. now left.
  - specialize (IH (pre ++ [x])).
    rewrite <- app_assoc in IH. simpl in IH.
    rewrite IH by exact Hnd.
    rewrite length_app. simpl. f_equal. lia.
Qed.

Lemma map_list_index_nodup axtypes :
  List.NoDup axtypes -> map (list_index axtypes) axtypes = seq 0 (length axtypes).
Proof. intros Hnd. exact (map_list_index_suffix [] axtypes Hnd). Qed.

(** Two equal tags share their first position, so a repeated tag makes the
    positions looked up repeat as well. *)
Lemma map_list_index_dup axtypes :
  ~ List.NoDup axtypes -> ~ List.NoDup (map (list_index axtypes) axtypes).
Proof.
  intros Hdup Hnd. apply Hdup.
  eapply NoDup_map_inv. exact Hnd.
Qed.

Lemma select_order_bijection_iff axtypes :
  is_bijection_on_range (length axtypes) (select_order axtypes) <-> List.NoDup axtypes.
Proof.
  unfold is_bijection_on_range. split.
  - intros Hperm.
    destruct (ListDec.NoDup_dec string_dec axtypes) as [Hnd|Hdup]; [exact Hnd|].
    exfalso. apply (map_list_index_dup axtypes Hdup).
    eapply Permutation_NoDup; [apply select_order_perm|].
    eapply Permutation_NoDup; [symmetry; exact Hperm|].
    apply seq_NoDup.
  - intros Hnd. rewrite select_order_perm.
    now rewrite map_list_index_nodup.
Qed.

(** C3, as the specification states it, fails: with "TIME" and "WAVE"
    occurring once each and the spatial tag "HPLN-TAN" twice (the axis types
    of a header whose synthetic axis kept its default type), [select_order]
    returns [[2; 1; 0; 0]], which repeats position 0 and omits position 3. *)
Lemma select_order_repeated_spatial_tag :
  no_duplicate_time_wave ["HPLN-TAN"; "WAVE"; "TIME"; "HPLN-TAN"] /\
  select_order ["HPLN-TAN"; "WAVE"; "TIME"; "HPLN-TAN"] = [2; 1; 0; 0] /\
  ~ is_bijection_on_range 4 (select_order ["HPLN-TAN"; "WAVE"; "TIME"; "HPLN-TAN"]).
Proof.
  split; [split; cbn; lia|]. split; [reflexivity|].
  intros Hperm.
  apply (select_order_bijection_iff ["HPLN-TAN"; "WAVE"; "TIME"; "HPLN-TAN"]) in Hperm.
  inversion Hperm as [|x l Hnotin _]; subst.
  apply Hnotin. cbn. tauto.
Qed.

(** C3, amended: for every list of axis types in which no tag occurs twice,
    [select_order] returns a permutation of [range(len(axtypes))]. *)
Theorem select_order_bijection (axtypes : list string) :
  List.NoDup axtypes ->
  is_bijection_on_range (length axtypes) (select_order axtypes).
Proof. apply select_order_bijection_iff. Qed.

Lemma select_order_bijection_witness :
  List.NoDup ["HPLN-TAN"; "HPLT-TAN"; "WAVE"; "TIME"] /\
  is_bijection_on_range 4 (select_order ["HPLN-TAN"; "HPLT-TAN"; "WAVE"; "TIME"]).
Proof.
  assert (Hnd : List.NoDup ["HPLN-TAN"; "HPLT-TAN"; "WAVE"; "TIME"]).
  { repeat constructor; cbn; intuition discriminate. }
  split; [exact Hnd|].
  exact (select_order_bijection ["HPLN-TAN"; "HPLT-TAN"; "WAVE"; "TIME"] Hnd).
Defined.

(* ===================================================================== *)
(** ** [orient] *)
(* ===================================================================== *)

Example orient_example :
  exists a w,
    orient (example_array [2; 3; 4]) (example_wcs ["HPLN-TAN"; "HPLT-TAN"; "WAVE"] false) []
    = Ok (a, w, []) /\
    shape a = [4; 3; 2] /\
    elem a [3; 2; 1] = 123%Q /\
    ctype w = ["WAVE"; "HPLT-TAN"; "HPLN-TAN"] /\
    oriented w = true.
Proof. eexists _, _. split; [reflexivity|]. repeat split. Qed.

Lemma axes_failure_ValueError n seen axes :
  is_ValueError (axes_failure n seen axes) = true.
Proof.
  revert seen. induction axes as [|x r IH]; intros seen; simpl; [reflexivity|].
  destruct (Nat.ltb x n); simpl; [|reflexivity].
  destruct (existsb _ seen); [reflexivity|apply IH].
Qed.

Lemma transpose_error {A : Type} (a : ndarray A) axes e :
  transpose a axes = Error e -> is_ValueError e = true.
Proof.
  unfold transpose. destruct (is_axes_permutation _ _); [discriminate|].
  intros [= <-]. unfold transpose_failure.
  destruct (Nat.eqb _ _); [apply axes_failure_ValueError|reflexivity].
Qed.

Lemma transpose_all_error {A : Type} (arrs : list (ndarray A)) axes e :
  transpose_all arrs axes = Error e -> is_ValueError e = true.
Proof.
  induction arrs as [|arr r IH]; simpl; [discriminate|].
  destruct (transpose arr axes) as [t|e'] eqn:Ht; simpl.
  - destruct (transpose_all r axes) as [ts|e'']; simpl; [discriminate|].
    intros [= <-]. now apply IH.
  - intros [= <-]. now apply transpose_error in Ht.
Qed.

Lemma orient_error {A : Type} (array : ndarray A) wcs extra_arrs e :
  orient array wcs extra_arrs = Error e -> is_ValueError e = true.
Proof.
  unfold orient.
  destruct (oriented wcs); [discriminate|].
  destruct (negb _ && negb _); [intros [= <-]; reflexivity|].
  destruct (negb _); [intros [= <-]; reflexivity|].
  destruct (transpose array _) as [ra|e1] eqn:Ht; simpl.
  - destruct (transpose_all extra_arrs _) as [re|e2] eqn:Hx; simpl; [discriminate|].
    intros [= <-]. now apply transpose_all_error in Hx.
  - intros [= <-]. now apply transpose_error in Ht.
Qed.

(** C9: [orient] is idempotent.  Whenever [orient] accepts an array, a
    coordinate system and auxiliary arrays, the coordinate system it returns
    is flagged [oriented], and applying [orient] to what it returned gives
    exactly that result back. *)
Theorem orient_idempotent {A : Type} (array : ndarray A) (wcs : WCS)
    (extra_arrs : list (ndarray A)) (r : ndarray A * WCS * list (ndarray A)) :
  orient array wcs extra_arrs = Ok r ->
  oriented (snd (fst r)) = true /\
  orient (fst (fst r)) (snd (fst r)) (snd r) = Ok r.
Proof.
  unfold orient at 1.
  destruct (oriented wcs) eqn:Hor.
  - intros [= <-]. simpl. split; [exact Hor|].
    unfold orient. now rewrite Hor.
  - destruct (negb _ && negb _); [discriminate|].
    destruct (negb _); [discriminate|].
    destruct (transpose array _) as [ra|e1]; simpl; [|discriminate].
    destruct (transpose_all extra_arrs _) as [re|e2]; simpl; [|discriminate].
    intros [= <-]. simpl. split; reflexivity.
Qed.

Lemma orient_idempotent_witness :
  exists r,
    orient (example_array [2; 3; 4])
           (example_wcs ["HPLN-TAN"; "HPLT-TAN"; "WAVE"] false)
           [example_array [2; 3; 4]] = Ok r /\
    oriented (snd (fst r)) = true /\
    orient (fst (fst r)) (snd (fst r)) (snd r) = Ok r.
Proof.
  eexists. split; [reflexivity|].
  apply (orient_idempotent (example_array [2; 3; 4])
           (example_wcs ["HPLN-TAN"; "HPLT-TAN"; "WAVE"] false)
           [example_array [2; 3; 4]]).
  reflexivity.
Defined.

(* ===================================================================== *)
(** ** Which exceptions the core raises *)
(* ===================================================================== *)

Lemma never_coded_ok {A : Type} (a : A) : never_coded (Ok a).
Proof. intros e. discriminate. Qed.

Lemma never_coded_raise {A : Type} (e : exn) :
  is_CubeError e = false -> never_coded (@raise A e).
Proof. intros He e' [= <-]. exact He. Qed.

Lemma never_coded_bind {A B : Type} (c : py A) (k : A -> py B) :
  never_coded c -> (forall a, never_coded (k a)) -> never_coded (bind c k).
Proof.
  intros Hc Hk e. destruct c as [a|e']; simpl.
  - apply Hk.
  - intros [= <-]. now apply Hc.
Qed.



(** Case analysis along the structure of a modelled function. *)
Ltac never_coded_step :=
  match goal with
  | |- never_coded (Ok _) => apply never_coded_ok
  | |- never_coded (raise _) => apply never_coded_raise; reflexivity
  | |- never_coded (Error _) => apply never_coded_raise; reflexivity
  | |- never_coded (bind _ _) => apply never_coded_bind; [|intros ?]
  | |- never_coded (match ?x with _ => _ end) => destruct x
  | |- never_coded (let '(_, _) := ?p in _) => destruct p
  | H : never_coded ?c |- never_coded ?c => exact H
  end.

Ltac never_coded_auto := repeat (never_coded_step; simpl); eauto.

Lemma py_nth_never_coded {A : Type} (l : list A) i : never_coded (py_nth l i).
Proof. unfold py_nth. never_coded_auto. Qed.

Lemma py_set_nth_never_coded {A : Type} (l : list A) i x :
  never_coded (py_set_nth l i x).
Proof. unfold py_set_nth. never_coded_auto. Qed.

Lemma quantity_to_never_coded v u c : never_coded (quantity_to v u c).
Proof. unfold quantity_to. never_coded_auto. Qed.

Lemma int_round_div_never_coded n d : never_coded (int_round_div n d).
Proof. unfold int_round_div. never_coded_auto. Qed.

Create HintDb never_coded.

#[local] Hint Resolve py_nth_never_coded py_set_nth_never_coded
  quantity_to_never_coded int_round_div_never_coded : never_coded.

Lemma convert_point_never_coded value unit wcs axis source :
  never_coded (convert_point value unit wcs axis source).
Proof.
  unfold convert_point.
  repeat (never_coded_step; simpl); auto with never_coded.
Qed.

Lemma common_axis_lengths_never_coded cubes common :
  never_coded (common_axis_lengths cubes common).
Proof.
  induction cubes as [|c r IH]; simpl; never_coded_auto.
  apply py_nth_never_coded.
Qed.

Lemma convert_index_never_coded i cumul :
  never_coded (_convert_cube_like_index_to_sequence_indices i cumul).
Proof.
  unfold _convert_cube_like_index_to_sequence_indices.
  repeat (never_coded_step; simpl); auto with never_coded.
Qed.

#[local] Hint Resolve convert_point_never_coded common_axis_lengths_never_coded
  convert_index_never_coded : never_coded.

Lemma convert_slices_never_coded s cumul :
  never_coded (_convert_cube_like_slice_to_sequence_slices s cumul).
Proof.
  unfold _convert_cube_like_slice_to_sequence_slices.
  repeat (never_coded_step; simpl); auto with never_coded.
Qed.

#[local] Hint Resolve convert_slices_never_coded : never_coded.



(** C8: a slice whose start is in degrees and whose stop is in arcseconds
    raises the slicing-unit error, code 5, whatever the step, the
    coordinate system, the axis and the source, although the two units are
    convertible into each other. *)
Theorem mixed_units_slice_raises_code_5
    (a b : Q) (st : option scalar) (wcs : WCS) (axis : Z) (source : string) :
  _convert_slice (mk_slice (Some (SQuantity a u_deg)) (Some (SQuantity b u_arcsec)) st)
                 wcs axis source
  = Error (CubeError 5 "Only one unit per axis may be given") /\
  CubeError_errors 5 = Some "Slicing unit error" /\
  convertible u_deg u_arcsec = true.
Proof. repeat split. Qed.





(* ===================================================================== *)
(** ** Sequence indexing *)
(* ===================================================================== *)

Example convert_index_5 :
  _convert_cube_like_index_to_sequence_indices 5 [3; 6; 9]%Z = Ok (1, 2)%Z.
Proof. reflexivity. Qed.

Example convert_index_9 :
  _convert_cube_like_index_to_sequence_indices 9 [3; 6; 9]%Z = Ok (2, 2)%Z.
Proof. reflexivity. Qed.

Example convert_slice_to_boundary :
  _convert_cube_like_slice_to_sequence_slices (slice2 2 6)%Z [3; 6; 9]%Z
  = Ok (mk_slice (Some 0%Z) (Some 2%Z) None, slice_list [slice2 2 3]%Z).
Proof. reflexivity. Qed.

(** C5: three cubes of extent 3 along common axis 0 have cumulative lengths
    [[3; 6; 9]]; the global slice [slice(2, 7)] becomes the sequence slice
    [slice(0, 3)], which selects cubes 0, 1 and 2, with the local slices
    [[slice(2, 3); slice(0, 1)]]: the first is applied to cube 0 and the
    second to cube 2, while cube 1 receives no local slice. *)
Theorem slice_2_7_over_three_cubes :
  cumsum [3; 3; 3] = [3; 6; 9]%Z /\
  _convert_cube_like_slice_to_sequence_slices (slice2 2 7)%Z [3; 6; 9]%Z
  = Ok (mk_slice (Some 0%Z) (Some 3%Z) None, slice_list [slice2 2 3; slice2 0 1]%Z) /\
  slice_positions 3 (mk_slice (Some 0%Z) (Some 3%Z) None) = Ok [0; 1; 2]%Z /\
  (forall (R : Type) (sequence_getitem : CubeSequence -> seq_index -> py R)
          (data_rank : R -> py nat),
      let cube := example_cube ["WAVE"; "HPLT-TAN"; "HPLN-TAN"] [3; 4; 5] in
      index_sequence_as_cube R sequence_getitem data_rank
        (mk_CubeSequence [cube; cube; cube] [] 0) (ISlice (slice2 2 7)%Z)
      = sequence_getitem (mk_CubeSequence [cube; cube; cube] [] 0)
          (seq_tuple [QSlice (mk_slice (Some 0%Z) (Some 3%Z) None);
                      QSlices [slice2 2 3; slice2 0 1]%Z])) /\
  (forall (T : Type) (cube_getitem : T -> cube_key -> py T) (c0 c1 c2 : T),
      get_cube_from_sequence T cube_getitem [c0; c1; c2]
        (seq_tuple [QSlice (mk_slice (Some 0%Z) (Some 3%Z) None);
                    QSlices [slice2 2 3; slice2 0 1]%Z])
      = (do head <- cube_getitem c0 (key_one (QSlice (slice2 2 3)%Z));
         do tail <- cube_getitem c2 (key_one (QSlice (slice2 0 1)%Z));
         do data <- getitem_each T cube_getitem [head; c1; tail] (key_tuple []);
         Ok (got_sequence T data))).
Proof.
  split; [reflexivity|]. split; [reflexivity|]. split; [reflexivity|].
  split; [reflexivity|]. intros T cube_getitem c0 c1 c2.
  unfold get_cube_from_sequence. simpl.
  destruct (cube_getitem c0 _) as [head|e]; simpl; [|reflexivity].
  destruct (cube_getitem c2 _) as [tail|e]; simpl; reflexivity.
Qed.

Lemma py_nth_head {A : Type} (x : A) (l : list A) : py_nth (x :: l) 0 = Ok x.
Proof. reflexivity. Qed.

Lemma py_nth_last {A : Type} (l : list A) (d : A) :
  l <> [] -> py_nth l (-1) = Ok (List.last l d).
Proof.
  intros Hne. destruct (exists_last Hne) as (l' & x & ->).
  rewrite last_last. unfold py_nth. rewrite length_app. simpl length.
  replace (-1 <? 0)%Z with true by reflexivity.
  destruct (Z.ltb_spec (-1 + Z.of_nat (length l' + 1)) 0) as [Hlt|_]; [lia|].
  replace (Z.to_nat (-1 + Z.of_nat (length l' + 1))) with (length l') by lia.
  rewrite lookup_app_r by lia. rewrite Nat.sub_diag. reflexivity.
Qed.

Lemma cumsum_from_nonempty acc lengths :
  lengths <> [] -> cumsum_from acc lengths <> [].
Proof. destruct lengths; [congruence | discriminate]. Qed.

Lemma cumsum_from_length acc lengths :
  length (cumsum_from acc lengths) = length lengths.
Proof. revert acc. induction lengths as [|n r IH]; intros acc; simpl; [|rewrite IH]; reflexivity. Qed.

Lemma cumsum_from_last acc lengths d :
  lengths <> [] ->
  List.last (cumsum_from acc lengths) d = (acc + Z.of_nat (list_sum lengths))%Z.
Proof.
  revert acc. induction lengths as [|n r IH]; intros acc Hne; [congruence|].
  destruct r as [|m r'].
  - simpl. lia.
  - assert (Hr : m :: r' <> []) by discriminate.
    specialize (IH (acc + Z.of_nat n)%Z Hr).
    simpl in *. rewrite IH. lia.
Qed.

Lemma cumsum_from_bounded acc lengths :
  Forall (fun c => (c <= acc + Z.of_nat (list_sum lengths))%Z) (cumsum_from acc lengths).
Proof.
  revert acc. induction lengths as [|n r IH]; intros acc; simpl; constructor.
  - lia.
  - eapply List.Forall_impl; [|apply IH]. simpl. intros c Hc. lia.
Qed.

(** When every cumulative length is at most the index, [np.where] returns
    every position. *)
Lemma where_le_all cumul x pos :
  Forall (fun c => (c <= x)%Z) cumul ->
  where_le cumul x pos = map (fun k => (pos + Z.of_nat k)%Z) (seq 0 (length cumul)).
Proof.
  revert pos. induction cumul as [|c r IH]; intros pos Hall; [reflexivity|].
  inversion Hall as [|? ? Hc Hr]; subst. simpl.
  destruct (Z.leb_spec c x) as [_|Hgt]; [|lia].
  f_equal; [lia|].
  rewrite IH by exact Hr.
  rewrite <- seq_shift, map_map.
  apply map_ext. intros k. lia.
Qed.

Lemma where_le_all_last cumul x :
  cumul <> [] ->
  Forall (fun c => (c <= x)%Z) cumul ->
  py_nth (where_le cumul x 0) (-1) = Ok (Z.of_nat (length cumul) - 1)%Z.
Proof.
  intros Hne Hall. rewrite where_le_all by exact Hall.
  rewrite (py_nth_last _ 0%Z).
  - f_equal. destruct cumul as [|c r]; [congruence|].
    change (length (c :: r)) with (S (length r)).
    rewrite seq_S, List.map_app. simpl map. rewrite last_last. lia.
  - destruct cumul; [congruence | discriminate].
Qed.

(** C6: for the cumulative lengths of any non-empty sequence of cubes, a
    global index at or beyond the final cumulative length is converted
    without raising: the sequence position is the last cube and the local
    index is the first cube's extent minus one. *)
Theorem index_beyond_end_clamps_to_first_cube (lengths : list nat) (i : Z) :
  lengths <> [] ->
  (Z.of_nat (list_sum lengths) <= i)%Z ->
  _convert_cube_like_index_to_sequence_indices i (cumsum lengths)
  = Ok (Z.of_nat (length lengths) - 1, Z.of_nat (hd 0%nat lengths) - 1)%Z.
Proof.
  intros Hne Hi. unfold _convert_cube_like_index_to_sequence_indices, cumsum.
  assert (Hall : Forall (fun c => (c <= i)%Z) (cumsum_from 0 lengths)).
  { eapply List.Forall_impl; [|apply cumsum_from_bounded]. simpl. intros c Hc. lia. }
  assert (Hlast : py_nth (cumsum_from 0 lengths) (-1)
                  = Ok (Z.of_nat (list_sum lengths))).
  { rewrite (py_nth_last _ 0%Z) by now apply cumsum_from_nonempty.
    rewrite cumsum_from_last by exact Hne. reflexivity. }
  rewrite where_le_all_last by (try apply cumsum_from_nonempty; assumption).
  rewrite Hlast, cumsum_from_length.
  destruct lengths as [|n r]; [congruence|].
  change (cumsum_from 0 (n :: r))
    with ((0 + Z.of_nat n)%Z :: cumsum_from (0 + Z.of_nat n) r) in *.
  rewrite py_nth_head. simpl bind.
  inversion Hall as [|? ? Hn _]; subst.
  destruct (Z.ltb_spec i (0 + Z.of_nat n)) as [Hlt|_]; [lia|].
  simpl list_sum in *.
  destruct (Z.ltb_spec (Z.of_nat (n + list_sum r) - 1) i) as [_|Hge]; [|lia].
  simpl bind. rewrite Z.ltb_irrefl. simpl hd.
  f_equal; f_equal; lia.
Qed.

Lemma index_beyond_end_clamps_to_first_cube_witness :
  [3; 3; 3] <> @nil nat /\
  (Z.of_nat (list_sum [3; 3; 3]%nat) <= 12)%Z /\
  _convert_cube_like_index_to_sequence_indices 12 (cumsum [3; 3; 3])
  = Ok (Z.of_nat (length [3; 3; 3]%nat) - 1, Z.of_nat (hd 0%nat [3; 3; 3]%nat) - 1)%Z.
Proof.
  split; [discriminate|]. split; [vm_compute; discriminate|].
  apply (index_beyond_end_clamps_to_first_cube [3; 3; 3] 12).
  - discriminate.
  - vm_compute. discriminate.
Defined.

(* ===================================================================== *)
(** ** [reduce_dim] *)
(* ===================================================================== *)

Lemma range_from_stop_reached fuel cur stop step :
  (0 < step)%Z -> (stop <= cur)%Z -> range_from fuel cur stop step = [].
Proof.
  intros Hstep Hstop. destruct fuel as [|f]; simpl; [reflexivity|].
  destruct (Z.ltb_spec 0 step) as [_|?]; [|lia].
  destruct (Z.ltb_spec cur stop) as [?|_]; [lia | reflexivity].
Qed.

Lemma py_range_negative_stop (s : Z) : (s < 0)%Z -> py_range 0 s 1 = Ok [].
Proof.
  intros Hs. unfold py_range. simpl.
  now rewrite range_from_stop_reached by lia.
Qed.

(** The bounds after clamping: a start below 0 becomes 0, a stop above the
    extent becomes the extent, and nothing else changes. *)
Lemma reduce_bounds_clamp (extent : nat) (a b : Z) (st : option Z) :
  reduce_bounds extent (mk_slice (Some a) (Some b) st)
  = (Z.max 0 a, Z.min b (Z.of_nat extent), default 1%Z st).
Proof.
  unfold reduce_bounds. simpl.
  destruct (Z.ltb_spec (Z.of_nat extent) b), (Z.ltb_spec a 0), st; simpl;
    repeat f_equal; lia.
Qed.

Lemma take_nothing {A : Type} (a : ndarray A) (axis extent : nat) :
  shape a !! axis = Some extent ->
  exists b, take a [] axis = Ok b /\ shape b = <[axis := 0]> (shape a).
Proof.
  intros Hext. unfold take. rewrite Hext. simpl.
  eexists. split; reflexivity.
Qed.

Example reduce_dim_example :
  exists c,
    reduce_dim example_wcs_slice
      (example_cube ["WAVE"; "HPLT-TAN"; "HPLN-TAN"] [10; 4; 5]) 1 (slice2 1 3)%Z = Ok c /\
    shape (data c) = [10; 2; 5] /\
    elem (data c) [0; 0; 0] = 10%Q /\
    elem (data c) [7; 1; 4] = 724%Q /\
    crpix (axes_wcs c) = [0; -1; 0]%Q.
Proof. eexists. split; [reflexivity|]. repeat split. Qed.

Section ReduceDim.

Variable wcs_slice : WCS -> list (pyslice Z) -> py WCS.

(** C10: [reduce_dim] clamps a negative start to 0 and a stop above the axis
    extent to the extent, and leaves a negative stop as it is.  So for a cube
    and one of its axes, [slice(0, s)] with [s] negative yields the empty
    [range(0, s)]: the reduced cube has extent 0 along that axis, where
    Python's own slicing of a sequence of that extent would count [s] from
    the end and select [range(0, max(extent + s, 0))]. *)
Theorem reduce_dim_negative_stop_selects_nothing
    (cube : Cube) (axis extent : nat) (s : Z) (newwcs : WCS) :
  same_shape_fields cube ->
  shape (data cube) !! axis = Some extent ->
  (s < 0)%Z ->
  wcs_slice (axes_wcs cube) (wcs_slice_data (shape (data cube)) axis 0 s) = Ok newwcs ->
  (forall a b st,
      reduce_bounds extent (mk_slice (Some a) (Some b) st)
      = (Z.max 0 a, Z.min b (Z.of_nat extent), default 1%Z st)) /\
  reduce_bounds extent (slice2 0 s)%Z = (0, s, 1)%Z /\
  py_range 0 s 1 = Ok [] /\
  (exists newcube,
      reduce_dim wcs_slice cube axis (slice2 0 s)%Z = Ok newcube /\
      shape (data newcube) = <[axis := 0]> (shape (data cube)) /\
      shape (data newcube) !! axis = Some 0 /\
      axes_wcs newcube = newwcs) /\
  slice_positions extent (slice2 0 s)%Z = py_range 0 (Z.max (s + Z.of_nat extent) 0) 1.
Proof.
  intros [Hmask Hunc] Hext Hs Hwcs.
  assert (Hbounds : reduce_bounds extent (slice2 0 s)%Z = (0, s, 1)%Z).
  { unfold slice2. rewrite reduce_bounds_clamp. simpl. repeat f_equal; lia. }
  split; [intros a b st; apply reduce_bounds_clamp|].
  split; [exact Hbounds|].
  split; [now apply py_range_negative_stop|].
  split.
  - unfold reduce_dim. rewrite Hext, Hbounds.
    rewrite py_range_negative_stop by exact Hs. simpl bind.
    destruct (take_nothing (data cube) axis extent Hext) as (newdata & Htake & Hshape).
    rewrite Htake. simpl bind. rewrite Hwcs. simpl bind.
    assert (Herrors : exists errors,
               match uncertainty cube with
               | Some unc =>
                   bind (take (array unc) [] axis)
                        (fun arr => Ok (Some (mk_Uncertainty arr (uncertainty_type unc))))
               | None => Ok None
               end = Ok errors).
    { destruct (uncertainty cube) as [unc|] eqn:Hu; [|eexists; reflexivity].
      destruct (take_nothing (array unc) axis extent) as (arr & Harr & _).
      - now rewrite (Hunc unc eq_refl).
      - rewrite Harr. eexists. reflexivity. }
    destruct Herrors as [errors ->]. simpl bind.
    assert (Hm : exists m,
               match mask cube with
               | Some m0 => bind (take m0 [] axis) (fun m' => Ok (Some m'))
               | None => Ok None
               end = Ok m).
    { destruct (mask cube) as [m0|] eqn:Hm0; [|eexists; reflexivity].
      destruct (take_nothing m0 axis extent) as (m' & Hm' & _).
      - now rewrite (Hmask m0 eq_refl).
      - rewrite Hm'. eexists. reflexivity. }
    destruct Hm as [m ->]. simpl bind.
    eexists. split; [reflexivity|]. simpl.
    split; [exact Hshape|]. split; [|reflexivity].
    rewrite Hshape. apply list_lookup_insert_eq.
    now apply lookup_lt_Some in Hext.
  - unfold slice_positions, slice2. simpl.
    destruct (Z.ltb_spec s 0) as [_|?]; [|lia].
    replace (Z.min 0 (Z.of_nat extent)) with 0%Z by lia.
    reflexivity.
Qed.

End ReduceDim.

Lemma reduce_dim_negative_stop_selects_nothing_witness :
  let cube := example_cube ["WAVE"; "HPLT-TAN"; "HPLN-TAN"] [10; 4; 5] in
  exists newcube,
    reduce_dim example_wcs_slice cube 1 (slice2 0 (-1))%Z = Ok newcube /\
    shape (data newcube) = [10; 0; 5] /\
    slice_positions 4 (slice2 0 (-1))%Z = Ok [0; 1; 2]%Z.
Proof.
  intros cube.
  destruct (reduce_dim_negative_stop_selects_nothing example_wcs_slice cube 1 4 (-1)
              {| naxis := 3; ctype := ["WAVE"; "HPLT-TAN"; "HPLN-TAN"];
                 cunit := [u_deg; u_deg; u_deg]; crpix := [0; 0; 0]%Q;
                 crval := [0; 0; 0]%Q; cdelt := [1; 1; 1]%Q;
                 oriented := false; was_augmented := false |})
    as (_ & _ & _ & (newcube & Hred & Hshape & _ & _) & Hconv).
  - split; intros x Hx; discriminate Hx.
  - reflexivity.
  - reflexivity.
  - reflexivity.
  - exists newcube. split; [exact Hred|]. split; [exact Hshape|].
    rewrite Hconv. reflexivity.
Defined.

(* ===================================================================== *)
(** ** Classification of an index on a rank-3 cube *)
(* ===================================================================== *)

Example classify_wave_second :
  classify_3d ["HPLT-TAN"; "WAVE"; "TIME"] (ITuple [CInt 5; CSlice slice_all; CSlice slice_all])
  = Ok (mk_flags_3d false true false false false).
Proof. reflexivity. Qed.

Example classify_spectrum_wave_first :
  classify_3d ["WAVE"; "HPLT-TAN"; "HPLN-TAN"] (ITuple [CSlice slice_all; CInt 1; CInt 2])
  = Ok (mk_flags_3d false true false false false).
Proof. reflexivity. Qed.

(** C1, as the specification states it, fails: on a rank-3 cube with axis
    types [['WAVE', 'HPLT-TAN', 'HPLN-TAN']] the index
    [(5, slice(None), slice(None))] is not classified as a spectrum;
    [getitem_3d] asks the reduced cube for a map, with [item[0]] as the only
    argument, and makes no call to [slice_to_spectrum]. *)
Lemma index_5_all_all_is_not_a_spectrum :
  let cube := example_cube ["WAVE"; "HPLT-TAN"; "HPLN-TAN"] [10; 4; 5] in
  let item := ITuple [CInt 5; CSlice slice_all; CSlice slice_all] in
  (exists f, classify_3d (ctype (axes_wcs cube)) item = Ok f /\
             to_spectrum f = false /\ to_map f = true) /\
  (exists reducedcube,
      getitem_3d example_wcs_slice cube item
      = Ok (slice_to_map reducedcube [Some (CInt 5)])) /\
  (forall reducedcube args,
      getitem_3d example_wcs_slice cube item
      <> Ok (slice_to_spectrum reducedcube args)).
Proof.
  intros cube item.
  assert (Hget : exists reducedcube,
             getitem_3d example_wcs_slice cube item
             = Ok (slice_to_map reducedcube [Some (CInt 5)])).
  { eexists. reflexivity. }
  split; [eexists; split; [reflexivity|]; split; reflexivity|].
  split; [exact Hget|].
  intros reducedcube args. destruct Hget as [r ->]. discriminate.
Qed.

Section Getitem3d.

Variable wcs_slice : WCS -> list (pyslice Z) -> py WCS.

(** C1, amended: for a cube whose WCS axis types are
    [['WAVE', 'HPLT-TAN', 'HPLN-TAN']], the index
    [(5, slice(None), slice(None))] classifies as map-producing and as
    nothing else, because axis 1 is not "WAVE"; [getitem_3d] hands the
    reduced cube and the index to [handle_slice_to_map], which on a rank-3
    cube calls [slice_to_map(item[0])].  [handle_slice_to_spectrum] is not
    invoked; given this index and a rank-3 cube it would call
    [slice_to_spectrum(item[0], None)]. *)
Theorem index_5_all_all_is_a_map (cube : Cube) :
  ctype (axes_wcs cube) = ["WAVE"; "HPLT-TAN"; "HPLN-TAN"] ->
  let item := ITuple [CInt 5; CSlice slice_all; CSlice slice_all] in
  classify_3d (ctype (axes_wcs cube)) item
  = Ok (mk_flags_3d true false false false false) /\
  getitem_3d wcs_slice cube item
  = bind (reduce_by_item wcs_slice cube item)
         (fun reducedcube => handle_slice_to_map reducedcube item) /\
  (forall reducedcube,
      ndim (data reducedcube) = 3 ->
      handle_slice_to_map reducedcube item
      = Ok (slice_to_map reducedcube [Some (CInt 5)]) /\
      handle_slice_to_spectrum reducedcube item
      = Ok (slice_to_spectrum reducedcube [Some (CInt 5); None])).
Proof.
  intros Hctype item.
  assert (Hflags : classify_3d (ctype (axes_wcs cube)) item
                   = Ok (mk_flags_3d true false false false false))
    by (rewrite Hctype; reflexivity).
  split; [exact Hflags|]. split.
  - unfold getitem_3d. rewrite Hflags. reflexivity.
  - intros reducedcube Hrank.
    unfold handle_slice_to_map, handle_slice_to_spectrum.
    rewrite Hrank. split; reflexivity.
Qed.

End Getitem3d.

Lemma index_5_all_all_is_a_map_witness :
  let cube := example_cube ["WAVE"; "HPLT-TAN"; "HPLN-TAN"] [10; 4; 5] in
  let item := ITuple [CInt 5; CSlice slice_all; CSlice slice_all] in
  ctype (axes_wcs cube) = ["WAVE"; "HPLT-TAN"; "HPLN-TAN"] /\
  classify_3d (ctype (axes_wcs cube)) item
  = Ok (mk_flags_3d true false false false false) /\
  handle_slice_to_map cube item = Ok (slice_to_map cube [Some (CInt 5)]) /\
  handle_slice_to_spectrum cube item
  = Ok (slice_to_spectrum cube [Some (CInt 5); None]).
Proof.
  intros cube item.
  destruct (index_5_all_all_is_a_map example_wcs_slice cube eq_refl)
    as (Hflags & _ & Hcalls).
  split; [reflexivity|]. split; [exact Hflags|].
  exact (Hcalls cube eq_refl).
Defined.

(* ===================================================================== *)
(** ** Augmentation of a header *)
(* ===================================================================== *)

Example first_expected_example :
  first_expected "Inconsistent coordinate types (expected HPLT-TAN, got HPLN-TAN)."
  = Some "expected HPLT-TAN".
Proof. reflexivity. Qed.

Example example_header_needs_augmenting :
  example_resolve example_header = inconsistent "Unmatched celestial axes." /\
  _needs_augmenting example_resolve (Some example_header) = true.
Proof. split; vm_compute; reflexivity. Qed.

(** The synthetic axis gets the default type, whatever the header held. *)
Lemma set_axis_params_ctype axis h :
  set_axis_params axis h !! String.append "CTYPE" axis = Some (HStr "HPLN-TAN").
Proof.
  unfold set_axis_params, new_wcs_axes_params. simpl.
  rewrite lookup_insert_ne by discriminate.
  rewrite lookup_insert_ne by discriminate.
  apply lookup_insert_eq.
Qed.

(** The copy made by [deepcopy] sits at a new location. *)
Lemma deepcopy_fresh (st : list (gmap string hval)) h header :
  is_Some (st !! header) -> fst (deepcopy st h) <> header.
Proof.
  intros Hsome. apply lookup_lt_is_Some in Hsome. simpl. lia.
Qed.

Section Augment.

Variable resolve : gmap string hval -> resolution.

(** What [_augment] does when the header with the synthetic axis fails to
    resolve and the failure names the expected type: the header returned is
    the unresolved copy, unchanged, and the rewritten type is stored in the
    caller's header. *)
Lemma _augment_unresolved st header naxis h axis message found :
  st !! header = Some h ->
  synthetic_axis h naxis = Ok axis ->
  resolve (set_axis_params axis h) = inconsistent message ->
  first_expected message = Some found ->
  _augment resolve header naxis st
  = Ok (length st,
        <[header := <[String.append "CTYPE" axis := HStr (string_drop 9 found)]> h]>
          (st ++ [set_axis_params axis h])).
Proof.
  intros Hh Haxis Hres Hfound.
  assert (Hlt : header < length st) by (now apply lookup_lt_Some in Hh).
  unfold _augment, deepcopy. rewrite Hh, Haxis. cbn [bind].
  assert (Hcopy : alter (set_axis_params axis) (length st) (st ++ [h])
                  = st ++ [set_axis_params axis h]).
  { rewrite <- (Nat.add_0_r (length st)) at 1. now rewrite alter_app_r. }
  rewrite Hcopy.
  rewrite lookup_app_r by lia.
  replace (default ∅ ([set_axis_params axis h] !! (length st - length st)))
    with (set_axis_params axis h) by (rewrite Nat.sub_diag; reflexivity).
  rewrite Hres, Hfound. do 2 f_equal.
  apply list_eq. intros i.
  destruct (decide (i = header)) as [->|Hne].
  - rewrite list_lookup_alter_eq, list_lookup_insert_eq by (rewrite length_app; lia).
    rewrite lookup_app_l by lia. now rewrite Hh.
  - rewrite list_lookup_alter_ne, list_lookup_insert_ne by congruence. reflexivity.
Qed.

End Augment.

Section AugmentClaims.

Variable resolve : gmap string hval -> resolution.

(** C2 fails on the code.  When the header with the synthetic axis still
    fails to resolve, [_augment] returns that very header: its synthetic
    axis keeps the default type "HPLN-TAN" and it fails to resolve exactly
    as before (the rewritten type goes to the caller's header instead), so
    [WCS.__init__] ends in [InconsistentAxisTypesError] and constructs no
    coordinate system. *)
Theorem augment_returns_the_unresolved_header
    (st : list (gmap string hval)) (header : loc) (naxis : option Z)
    (h : gmap string hval) (axis message found : string) :
  st !! header = Some h ->
  _needs_augmenting resolve (Some h) = true ->
  synthetic_axis h naxis = Ok axis ->
  resolve (set_axis_params axis h) = inconsistent message ->
  first_expected message = Some found ->
  (exists newheader st' returned,
      _augment resolve header naxis st = Ok (newheader, st') /\
      st' !! newheader = Some returned /\
      returned !! String.append "CTYPE" axis = Some (HStr "HPLN-TAN") /\
      resolve returned = inconsistent message) /\
  WCS_init resolve (Some header) naxis st = Error (InconsistentAxisTypesError message).
Proof.
  intros Hh Hneeds Haxis Hres Hfound.
  assert (Hlt : header < length st) by (now apply lookup_lt_Some in Hh).
  pose proof (_augment_unresolved resolve st header naxis h axis message found
                Hh Haxis Hres Hfound) as Haug.
  assert (Hret : <[header := <[String.append "CTYPE" axis := HStr (string_drop 9 found)]> h]>
                   (st ++ [set_axis_params axis h]) !! length st
                 = Some (set_axis_params axis h)).
  { rewrite list_lookup_insert_ne by lia.
    rewrite lookup_app_r by lia. now rewrite Nat.sub_diag. }
  split.
  - eexists _, _, _. split; [exact Haug|]. split; [exact Hret|].
    split; [apply set_axis_params_ctype | exact Hres].
  - unfold WCS_init. rewrite Hh, Hneeds, Haug. cbn [bind fst snd].
    rewrite Hret. cbn [default from_option id]. now rewrite Hres.
Qed.

(** C7 fails on the code.  In the same situation [_augment] writes to its
    argument: once the call has returned, the caller's header holds the
    key [CTYPE<axis>] with the type named by the failure, which it did not
    hold before. *)
Theorem augment_writes_to_its_argument
    (st : list (gmap string hval)) (header : loc) (naxis : option Z)
    (h : gmap string hval) (axis message found : string) :
  st !! header = Some h ->
  synthetic_axis h naxis = Ok axis ->
  resolve (set_axis_params axis h) = inconsistent message ->
  first_expected message = Some found ->
  h !! String.append "CTYPE" axis <> Some (HStr (string_drop 9 found)) ->
  exists newheader st',
    _augment resolve header naxis st = Ok (newheader, st') /\
    newheader <> header /\
    st' !! header
    = Some (<[String.append "CTYPE" axis := HStr (string_drop 9 found)]> h) /\
    st' !! header <> st !! header.
Proof.
  intros Hh Haxis Hres Hfound Hold.
  assert (Hlt : header < length st) by (now apply lookup_lt_Some in Hh).
  assert (Hnew : <[header := <[String.append "CTYPE" axis := HStr (string_drop 9 found)]> h]>
                   (st ++ [set_axis_params axis h]) !! header
                 = Some (<[String.append "CTYPE" axis := HStr (string_drop 9 found)]> h)).
  { apply list_lookup_insert_eq. rewrite length_app. lia. }
  eexists _, _. split; [exact (_augment_unresolved resolve st header naxis h axis message found Hh Haxis Hres Hfound)|].
  split; [lia|]. split; [exact Hnew|].
  rewrite Hnew, Hh. intros [= Heq]. apply Hold.
  rewrite <- Heq. apply lookup_insert_eq.
Qed.

End AugmentClaims.

Lemma augment_returns_the_unresolved_header_witness :
  (exists newheader st' returned,
      _augment example_resolve 0 (Some 3%Z) [example_header] = Ok (newheader, st') /\
      st' !! newheader = Some returned /\
      returned !! "CTYPE4" = Some (HStr "HPLN-TAN") /\
      example_resolve returned
      = inconsistent "Inconsistent coordinate types (expected HPLT-TAN, got HPLN-TAN).") /\
  WCS_init example_resolve (Some 0) (Some 3%Z) [example_header]
  = Error (InconsistentAxisTypesError
             "Inconsistent coordinate types (expected HPLT-TAN, got HPLN-TAN).").
Proof.
  apply (augment_returns_the_unresolved_header example_resolve [example_header] 0
           (Some 3%Z) example_header "4"
           "Inconsistent coordinate types (expected HPLT-TAN, got HPLN-TAN)."
           "expected HPLT-TAN").
  - reflexivity.
  - vm_compute. reflexivity.
  - vm_compute. reflexivity.
  - vm_compute. reflexivity.
  - vm_compute. reflexivity.
Defined.

Lemma augment_writes_to_its_argument_witness :
  exists newheader st',
    _augment example_resolve 0 (Some 3%Z) [example_header] = Ok (newheader, st') /\
    newheader <> 0 /\
    st' !! 0 = Some (<["CTYPE4" := HStr "HPLT-TAN"]> example_header) /\
    st' !! 0 <> [example_header] !! 0.
Proof.
  apply (augment_writes_to_its_argument example_resolve [example_header] 0
           (Some 3%Z) example_header "4"
           "Inconsistent coordinate types (expected HPLT-TAN, got HPLN-TAN)."
           "expected HPLT-TAN").
  - reflexivity.
  - vm_compute. reflexivity.
  - vm_compute. reflexivity.
  - vm_compute. reflexivity.
  - vm_compute. discriminate.
Defined.

(* ===================================================================== *)
(** * Further properties *)
(* ===================================================================== *)

(* ===================================================================== *)
(** ** The order [select_order] produces *)
(* ===================================================================== *)

Lemma list_index_lt l t : In t l -> list_index l t < length l.
Proof.
  induction l as [|x r IH]; simpl; [tauto|].
  destruct (String.eqb_spec t x) as [->|Hne]; [lia|].
  intros [->|Hin]; [congruence|]. specialize (IH Hin). lia.
Qed.

Lemma nth_list_index l t : In t l -> nth (list_index l t) l "" = t.
Proof.
  induction l as [|x r IH]; simpl; [tauto|].
  destruct (String.eqb_spec t x) as [->|Hne]; [reflexivity|].
  intros [->|Hin]; [congruence | now apply IH].
Qed.

Lemma entry_leb_fst a b : entry_leb a b = true -> fst a <= fst b.
Proof.
  unfold entry_leb. intros H. apply orb_true_iff in H as [H|H].
  - apply Nat.ltb_lt in H. lia.
  - apply andb_true_iff in H as [H _]. apply Nat.eqb_eq in H. lia.
Qed.

Lemma entry_leb_false_fst a b : entry_leb a b = false -> fst b <= fst a.
Proof.
  unfold entry_leb. intros H. apply orb_false_iff in H as [H _].
  apply Nat.ltb_ge in H. exact H.
Qed.

Lemma sort_insert_sorted x l :
  Sorted by_priority l -> Sorted by_priority (sort_insert x l).
Proof.
  induction l as [|y r IH]; simpl; intros Hs.
  - repeat constructor.
  - destruct (entry_leb x y) eqn:Hxy.
    + constructor; [exact Hs|]. constructor. now apply entry_leb_fst.
    + inversion Hs as [|? ? Hr Hhd]; subst.
      constructor; [now apply IH|].
      destruct r as [|z r']; simpl.
      * constructor. now apply entry_leb_false_fst.
      * destruct (entry_leb x z).
        -- constructor. now apply entry_leb_false_fst.
        -- inversion Hhd; subst. now constructor.
Qed.

Lemma list_sort_sorted l : Sorted by_priority (list_sort l).
Proof.
  induction l as [|x r IH]; simpl; [constructor|].
  now apply sort_insert_sorted.
Qed.

Lemma Sorted_map_fst (l : list (nat * string)) :
  Sorted by_priority l -> Sorted le (map fst l).
Proof.
  induction 1 as [|a l Hs IH Hhd]; simpl; constructor; [exact IH|].
  destruct Hhd; simpl; constructor. assumption.
Qed.

Lemma select_order_length (axtypes : list string) :
  length (select_order axtypes) = length axtypes.
Proof.
  unfold select_order.
  now rewrite length_map, (Permutation_length (list_sort_perm _)), length_map.
Qed.

(** X1: whatever the axis types (repeated tags included), [select_order]
    returns as many positions as there are axes, every one of them a valid
    position, and the axes it lists come in non-decreasing priority:
    TIME and UTC first, then WAVE, then HPLT-TAN, then the others by the
    position of their first occurrence. *)
Theorem select_order_positions_by_priority (axtypes : list string) :
  length (select_order axtypes) = length axtypes /\
  Forall (fun p => p < length axtypes) (select_order axtypes) /\
  Sorted le (map (fun p => axis_priority axtypes (nth p axtypes ""))
                 (select_order axtypes)).
Proof.
  assert (Hin : forall e, In e (list_sort (map (order_entry axtypes) axtypes)) ->
                          In (snd e) axtypes /\ e = order_entry axtypes (snd e)).
  { intros e He.
    apply (Permutation_in _ (list_sort_perm _)) in He.
    apply in_map_iff in He as (t & <- & Ht).
    rewrite order_entry_snd. now split. }
  split; [|split].
  - unfold select_order. now rewrite length_map, (Permutation_length (list_sort_perm _)), length_map.
  - unfold select_order. apply List.Forall_forall. intros p Hp.
    apply in_map_iff in Hp as (e & <- & He).
    apply list_index_lt, Hin, He.
  - unfold select_order. rewrite map_map.
    erewrite map_ext_in.
    + apply Sorted_map_fst, list_sort_sorted.
    + intros e He. destruct (Hin e He) as [Hmem Heq].
      unfold axis_priority. rewrite nth_list_index by exact Hmem.
      now rewrite <- Heq.
Qed.

Lemma sort_insert_head x l :
  (forall y, In y l -> fst x < fst y) -> sort_insert x l = x :: l.
Proof.
  destruct l as [|y r]; simpl; [reflexivity|]. intros Hlt.
  unfold entry_leb.
  assert (H : fst x < fst y) by (apply Hlt; now left).
  apply Nat.ltb_lt in H. now rewrite H.
Qed.

(** Sorting leaves a list with strictly increasing priorities as it is. *)
Lemma list_sort_increasing l :
  StronglySorted lt (map fst l) -> list_sort l = l.
Proof.
  induction l as [|x r IH]; simpl; [reflexivity|].
  intros Hs. inversion Hs as [|? ? Hr Hx]; subst.
  rewrite IH by exact Hr. apply sort_insert_head.
  intros y Hy. rewrite List.Forall_forall in Hx. apply Hx.
  now apply in_map.
Qed.

Lemma StronglySorted_seq a n : StronglySorted lt (seq a n).
Proof.
  revert a. induction n as [|n IH]; intros a; simpl; constructor; [apply IH|].
  apply List.Forall_forall. intros x Hx. apply in_seq in Hx. lia.
Qed.

Lemma order_entry_other axtypes t :
  is_prioritised t = false -> order_entry axtypes t = (list_index axtypes t + 3, t).
Proof.
  unfold is_prioritised, order_entry. intros H.
  apply orb_false_iff in H as [H Hh]. apply orb_false_iff in H as [H Hw].
  now rewrite H, Hw, Hh.
Qed.

(** X2: [select_order] moves only the prioritised types.  On a list of
    distinct axis types none of which is TIME, UTC, WAVE or HPLT-TAN it
    returns the identity order [0, 1, ..., n-1]. *)
Theorem select_order_keeps_other_axes (axtypes : list string) :
  List.NoDup axtypes ->
  forallb (fun t => negb (is_prioritised t)) axtypes = true ->
  select_order axtypes = seq 0 (length axtypes).
Proof.
  intros Hnd Hother.
  assert (Hentries : map (order_entry axtypes) axtypes
                     = map (fun t => (list_index axtypes t + 3, t)) axtypes).
  { apply map_ext_in. intros t Ht. apply order_entry_other.
    rewrite forallb_forall in Hother. specialize (Hother t Ht).
    now apply negb_true_iff in Hother. }
  unfold select_order. rewrite Hentries.
  rewrite list_sort_increasing.
  - rewrite map_map. simpl. now apply map_list_index_nodup.
  - rewrite map_map. simpl.
    rewrite <- (map_map (list_index axtypes) (fun i => i + 3)).
    rewrite map_list_index_nodup by exact Hnd.
    replace (map (fun i => i + 3) (seq 0 (length axtypes)))
      with (seq 3 (length axtypes)).
    + apply StronglySorted_seq.
    + rewrite <- (seq_shift (length axtypes) 2), <- (seq_shift (length axtypes) 1),
        <- (seq_shift (length axtypes) 0), !map_map.
      apply map_ext. intros i. lia.
Qed.

Lemma select_order_keeps_other_axes_witness :
  List.NoDup ["HPLN-TAN"; "STOKES"; "FREQ"] /\
  select_order ["HPLN-TAN"; "STOKES"; "FREQ"] = [0; 1; 2].
Proof.
  assert (Hnd : List.NoDup ["HPLN-TAN"; "STOKES"; "FREQ"]).
  { repeat constructor; cbn; intuition discriminate. }
  split; [exact Hnd|].
  exact (select_order_keeps_other_axes ["HPLN-TAN"; "STOKES"; "FREQ"] Hnd eq_refl).
Defined.

(* ===================================================================== *)
(** ** When [orient] succeeds *)
(* ===================================================================== *)

Lemma nodupb_NoDup l : nodupb l = true <-> List.NoDup l.
Proof.
  induction l as [|x r IH]; simpl.
  - split; [constructor | reflexivity].
  - rewrite andb_true_iff, negb_true_iff, IH. split.
    + intros [Hx Hr]. constructor; [|exact Hr].
      intros Hin. apply not_true_iff_false in Hx. apply Hx.
      apply existsb_exists. exists x. split; [exact Hin | apply Nat.eqb_refl].
    + intros Hnd. inversion Hnd as [|? ? Hx Hr]; subst. split; [|exact Hr].
      apply not_true_iff_false. intros Hex.
      apply existsb_exists in Hex as (y & Hy & Heq).
      apply Nat.eqb_eq in Heq. now subst.
Qed.

(** [is_axes_permutation] decides whether the axes are a permutation of
    [range(n)]. *)
Lemma is_axes_permutation_iff n axes :
  is_axes_permutation n axes = true <-> Permutation axes (seq 0 n).
Proof.
  unfold is_axes_permutation. rewrite !andb_true_iff, Nat.eqb_eq, nodupb_NoDup.
  rewrite forallb_forall. split.
  - intros [[Hlen Hlt] Hnd].
    apply NoDup_Permutation_bis; [exact Hnd | rewrite length_seq; lia |].
    intros i Hi. apply in_seq. specialize (Hlt i Hi). apply Nat.ltb_lt in Hlt. lia.
  - intros Hperm. repeat split.
    + rewrite (Permutation_length Hperm). apply length_seq.
    + intros i Hi. apply Nat.ltb_lt.
      apply (Permutation_in _ Hperm), in_seq in Hi. lia.
    + eapply Permutation_NoDup; [symmetry; exact Hperm | apply seq_NoDup].
Qed.

Lemma axis_position_nth (order : list nat) (i : nat) :
  List.NoDup order -> i < length order ->
  axis_position order (nth i order 0) = i.
Proof.
  revert i. induction order as [|x r IH]; intros i Hnd Hi; simpl in Hi; [lia|].
  inversion Hnd as [|? ? Hx Hr]; subst.
  destruct i as [|i]; simpl.
  - now rewrite Nat.eqb_refl.
  - destruct (Nat.eqb_spec (nth i r 0) x) as [Heq|_].
    + exfalso. apply Hx. rewrite <- Heq. apply nth_In. lia.
    + f_equal. apply IH; [exact Hr | lia].
Qed.

Lemma nth_map_seq (f : nat -> nat) (n k : nat) :
  k < n -> nth k (map f (seq 0 n)) 0 = f k.
Proof.
  intros Hk.
  rewrite (nth_indep _ 0 (f 0)) by (rewrite length_map, length_seq; exact Hk).
  rewrite map_nth. now rewrite seq_nth.
Qed.

(** A permutation of the axes is accepted by [transpose], and the result
    is the array with its axes rearranged. *)
Lemma transpose_is_transposed {A : Type} (a : ndarray A) (order : list nat) :
  Permutation order (seq 0 (ndim a)) ->
  exists t, transpose a order = Ok t /\ is_transposed order a t.
Proof.
  intros Hperm.
  assert (Hok : is_axes_permutation (ndim a) order = true)
    by now apply is_axes_permutation_iff.
  unfold transpose. rewrite Hok. eexists. split; [reflexivity|].
  split; [reflexivity|]. intros idx. eexists. split; [reflexivity|].
  split; [now rewrite length_map, length_seq|].
  intros i Hi. cbn [shape elem].
  assert (Hnd : List.NoDup order)
    by (eapply Permutation_NoDup; [symmetry; exact Hperm | apply seq_NoDup]).
  assert (Hlt : nth i order 0 < ndim a).
  { assert (Hin : In (nth i order 0) (seq 0 (ndim a)))
      by (apply (Permutation_in _ Hperm), nth_In; exact Hi).
    apply in_seq in Hin. lia. }
  rewrite (nth_map_seq _ _ _ Hlt). now rewrite axis_position_nth.
Qed.

Lemma transpose_all_transposed {A : Type} (arrs : list (ndarray A))
    (order : list nat) (n : nat) :
  Permutation order (seq 0 n) ->
  Forall (fun arr => ndim arr = n) arrs ->
  exists ts, transpose_all arrs order = Ok ts /\
             Forall2 (is_transposed order) arrs ts.
Proof.
  intros Hperm. induction 1 as [|arr r Harr _ IH]; simpl.
  - exists []. split; [reflexivity | constructor].
  - destruct (transpose_is_transposed arr order) as (t & -> & Ht);
      [now rewrite Harr|].
    destruct IH as (ts & -> & Hts). simpl.
    eexists. split; [reflexivity|]. now constructor.
Qed.

Lemma map_nth_seq_suffix {A : Type} (pre l : list A) (d : A) :
  map (fun i => nth i (pre ++ l) d) (seq (length pre) (length l)) = l.
Proof.
  revert pre. induction l as [|x r IH]; intros pre; simpl; [reflexivity|].
  f_equal.
  - rewrite app_nth2 by lia. now rewrite Nat.sub_diag.
  - specialize (IH (pre ++ [x])). rewrite <- app_assoc, length_app in IH.
    simpl in IH. now rewrite Nat.add_1_r in IH.
Qed.

Lemma map_nth_permutation {A : Type} (l : list A) (d : A) (order : list nat) :
  Permutation order (seq 0 (length l)) ->
  Permutation (map (fun i => nth i l d) order) l.
Proof.
  intros Hperm. rewrite (Permutation_map _ Hperm).
  pose proof (map_nth_seq_suffix [] l d) as Hall. simpl in Hall.
  now rewrite Hall.
Qed.

Lemma orient_checks_pass {A : Type} (array : ndarray A) (wcs : WCS) :
  was_augmented wcs = false ->
  ndim array = 3 \/ ndim array = 4 ->
  naxis wcs = ndim array ->
  negb (Nat.eqb (ndim array) 3) && negb (Nat.eqb (ndim array) 4) = false /\
  negb ((Nat.eqb (naxis wcs) 3 && Nat.eqb (ndim array) 3)
        || (Nat.eqb (naxis wcs) 4 && Nat.eqb (ndim array) 4
            && negb (was_augmented wcs))
        || (Nat.eqb (naxis wcs) 4 && Nat.eqb (ndim array) 3
            && was_augmented wcs)) = false.
Proof.
  intros -> Hrank ->. destruct Hrank as [-> | ->]; split; reflexivity.
Qed.


(** X3: on a coordinate system that is neither oriented nor augmented, whose
    axis count is the rank (3 or 4) of the array and whose axis types are
    distinct, [orient] succeeds and rearranges everything by the same
    order, [select_order] of the axis types, which is a permutation of the
    axes.  The array and every auxiliary array of that rank are transposed
    by it (shape and elements), and the coordinate system is the one
    [reindex_wcs] makes for that order, flagged [oriented] and not
    augmented. *)
Theorem orient_permutes_axes {A : Type} (array : ndarray A) (wcs : WCS)
    (extra_arrs : list (ndarray A)) :
  oriented wcs = false ->
  was_augmented wcs = false ->
  ndim array = 3 \/ ndim array = 4 ->
  naxis wcs = ndim array ->
  length (ctype wcs) = ndim array ->
  List.NoDup (ctype wcs) ->
  Forall (fun arr => ndim arr = ndim array) extra_arrs ->
  let order := select_order (ctype wcs) in
  exists result_array result_extras,
    orient array wcs extra_arrs
    = Ok (result_array, with_flags (reindex_wcs wcs order) true false, result_extras) /\
    Permutation order (seq 0 (ndim array)) /\
    is_transposed order array result_array /\
    Forall2 (is_transposed order) extra_arrs result_extras /\
    Permutation (shape result_array) (shape array).
Proof.
  intros Hor Haug Hrank Hnaxis Hlen Hnd Hextras order.
  destruct (orient_checks_pass array wcs Haug Hrank Hnaxis) as [Hc1 Hc2].
  assert (Hperm : Permutation order (seq 0 (ndim array))).
  { rewrite <- Hlen. now apply select_order_bijection_iff. }
  destruct (transpose_is_transposed array order Hperm) as (t & Ht & Htrans).
  destruct (transpose_all_transposed extra_arrs order (ndim array) Hperm Hextras)
    as (ts & Hts & Htss).
  exists t, ts. split.
  { unfold orient. rewrite Hor, Hc1, Hc2, Haug. fold order.
    rewrite Ht. cbn [bind]. rewrite Hts. reflexivity. }
  split; [exact Hperm|]. split; [exact Htrans|]. split; [exact Htss|].
  destruct Htrans as [-> _]. now apply map_nth_permutation.
Qed.

Lemma orient_permutes_axes_witness :
  exists result_array result_extra,
    orient (example_array [2; 3; 4])
           (example_wcs ["HPLN-TAN"; "TIME"; "WAVE"] false)
           [example_array [5; 6; 7]]
    = Ok (result_array,
          with_flags (reindex_wcs (example_wcs ["HPLN-TAN"; "TIME"; "WAVE"] false)
                                  [1; 2; 0]) true false,
          [result_extra]) /\
    shape result_array = [3; 4; 2] /\
    shape result_extra = [6; 7; 5] /\
    (exists source, elem result_array [2; 3; 1] = elem (example_array [2; 3; 4]) source /\
                    length source = 3 /\
                    nth 1 source 0 = 2 /\ nth 2 source 0 = 3 /\ nth 0 source 0 = 1).
Proof.
  destruct (orient_permutes_axes (example_array [2; 3; 4])
              (example_wcs ["HPLN-TAN"; "TIME"; "WAVE"] false)
              [example_array [5; 6; 7]])
    as (a & ex & Hor & _ & [Hshape Helem] & Hex & _).
  - reflexivity.
  - reflexivity.
  - left. reflexivity.
  - reflexivity.
  - reflexivity.
  - repeat constructor; cbn; intuition discriminate.
  - repeat constructor.
  - inversion Hex as [|? t ? ts [Hshape' _] Hrest]; subst.
    inversion Hrest; subst.
    exists a, t. split; [exact Hor|]. split; [exact Hshape|].
    split; [exact Hshape'|].
    destruct (Helem [2; 3; 1]) as (source & Hsrc & Hlength & Hcoord).
    exists source. split; [exact Hsrc|]. split; [exact Hlength|].
    split; [apply (Hcoord 0); simpl; lia|].
    split; [apply (Hcoord 1); simpl; lia | apply (Hcoord 2); simpl; lia].
Defined.

Lemma select_order_positions (axtypes : list string) :
  Forall (fun i => i < length axtypes) (select_order axtypes).
Proof.
  apply List.Forall_forall. intros i Hi.
  apply (Permutation_in _ (select_order_perm axtypes)) in Hi.
  apply in_map_iff in Hi as (t & <- & Ht). now apply list_index_lt.
Qed.

(** Axes that are all in bounds, one of them occurring twice, make numpy
    report the repeated axis. *)
Lemma axes_failure_repeated (n : nat) (seen axes : list nat) :
  Forall (fun i => i < n) axes ->
  List.NoDup seen ->
  ~ List.NoDup (rev seen ++ axes) ->
  axes_failure n seen axes = ValueError "repeated axis in transpose".
Proof.
  revert seen. induction axes as [|x r IH]; intros seen Hlt Hseen Hdup.
  - exfalso. apply Hdup. rewrite app_nil_r.
    eapply Permutation_NoDup; [apply Permutation_rev | exact Hseen].
  - inversion Hlt as [|? ? Hx Hr]; subst. simpl.
    apply Nat.ltb_lt in Hx. rewrite Hx. cbn [negb].
    destruct (existsb (Nat.eqb x) seen) eqn:Hex; [reflexivity|].
    apply IH; [exact Hr | |].
    + constructor; [|exact Hseen]. intros Hin.
      apply not_true_iff_false in Hex. apply Hex.
      apply existsb_exists. exists x. split; [exact Hin | apply Nat.eqb_refl].
    + simpl. now rewrite <- app_assoc.
Qed.

(** X4: [orient] does not transpose by an order that repeats an axis.  On a
    coordinate system that is neither oriented nor augmented and passes the
    rank and dimension checks, with one axis type per axis, a repeated axis
    type makes [select_order] repeat a position, and the call fails with
    numpy's [ValueError] for a repeated axis; nothing is returned. *)
Theorem orient_rejects_repeated_axis_types {A : Type} (array : ndarray A)
    (wcs : WCS) (extra_arrs : list (ndarray A)) :
  oriented wcs = false ->
  was_augmented wcs = false ->
  ndim array = 3 \/ ndim array = 4 ->
  naxis wcs = ndim array ->
  length (ctype wcs) = naxis wcs ->
  ~ List.NoDup (ctype wcs) ->
  orient array wcs extra_arrs = Error (ValueError "repeated axis in transpose").
Proof.
  intros Hor Haug Hrank Hnaxis Hlen Hdup.
  destruct (orient_checks_pass array wcs Haug Hrank Hnaxis) as [Hc1 Hc2].
  rewrite Hnaxis in Hlen.
  assert (Hrep : ~ List.NoDup (select_order (ctype wcs))).
  { intros Hnd. apply Hdup. apply select_order_bijection_iff.
    unfold is_bijection_on_range.
    apply NoDup_Permutation_bis; [exact Hnd | |].
    - rewrite length_seq, select_order_length. lia.
    - intros i Hi. apply in_seq.
      pose proof (select_order_positions (ctype wcs)) as Hpos.
      rewrite List.Forall_forall in Hpos. specialize (Hpos i Hi). lia. }
  assert (Hbad : is_axes_permutation (ndim array) (select_order (ctype wcs)) = false).
  { apply not_true_iff_false. intros Hok. apply Hrep.
    apply is_axes_permutation_iff in Hok.
    eapply Permutation_NoDup; [symmetry; exact Hok | apply seq_NoDup]. }
  unfold orient. rewrite Hor, Hc1, Hc2, Haug.
  unfold transpose. rewrite Hbad. cbn [bind raise].
  unfold transpose_failure. rewrite select_order_length, Hlen, Nat.eqb_refl.
  f_equal. apply axes_failure_repeated; [|constructor|exact Hrep].
  rewrite <- Hlen. apply select_order_positions.
Qed.

Lemma orient_rejects_repeated_axis_types_witness :
  orient (example_array [2; 3; 4])
         (example_wcs ["HPLN-TAN"; "WAVE"; "HPLN-TAN"] false) []
  = Error (ValueError "repeated axis in transpose").
Proof.
  apply orient_rejects_repeated_axis_types.
  - reflexivity.
  - reflexivity.
  - left. reflexivity.
  - reflexivity.
  - reflexivity.
  - intros Hnd. inversion Hnd as [|x l Hnotin _]; subst.
    apply Hnotin. cbn. tauto.
Defined.

(** X28: on an augmented coordinate system (four WCS axes for a rank-3
    array) whose first three axis types are distinct, [orient] succeeds
    with two orders.  The array and every auxiliary array of rank 3 are
    transposed (shape and elements) by [select_order] of the first three
    types taken in reverse, a permutation of the three array axes in which
    the synthetic axis takes no part.  The coordinate system is the one
    [reindex_wcs] makes for [select_order] of all four types, flagged
    [oriented] and still flagged augmented. *)
Theorem orient_augmented {A : Type} (array : ndarray A) (wcs : WCS)
    (extra_arrs : list (ndarray A)) :
  oriented wcs = false ->
  was_augmented wcs = true ->
  naxis wcs = 4 ->
  ndim array = 3 ->
  3 <= length (ctype wcs) ->
  List.NoDup (firstn 3 (ctype wcs)) ->
  Forall (fun arr => ndim arr = 3) extra_arrs ->
  let array_order := select_order (rev (firstn 3 (ctype wcs))) in
  let wcs_order := select_order (ctype wcs) in
  exists result_array result_extras,
    orient array wcs extra_arrs
    = Ok (result_array, with_flags (reindex_wcs wcs wcs_order) true true,
          result_extras) /\
    Permutation array_order (seq 0 3) /\
    is_transposed array_order array result_array /\
    Forall2 (is_transposed array_order) extra_arrs result_extras.
Proof.
  intros Hor Haug Hnaxis Hrank Hlen Hnd Hextras array_order wcs_order.
  assert (Hlen3 : length (rev (firstn 3 (ctype wcs))) = 3).
  { rewrite length_rev, length_firstn. lia. }
  assert (Hperm : Permutation array_order (seq 0 3)).
  { unfold array_order. rewrite <- Hlen3 at 2. apply select_order_bijection_iff.
    eapply Permutation_NoDup; [apply Permutation_rev | exact Hnd]. }
  destruct (transpose_is_transposed array array_order) as (t & Ht & Htrans);
    [now rewrite Hrank|].
  destruct (transpose_all_transposed extra_arrs array_order 3 Hperm Hextras)
    as (ts & Hts & Htss).
  exists t, ts. split.
  { unfold orient. rewrite Hor, Haug, Hnaxis, Hrank. cbn [Nat.eqb negb andb orb].
    fold array_order. rewrite Ht. cbn [bind]. rewrite Hts. reflexivity. }
  split; [exact Hperm|]. split; [exact Htrans | exact Htss].
Qed.

Lemma orient_augmented_witness :
  exists result_array,
    orient (example_array [2; 3; 4])
           (example_wcs ["TIME"; "WAVE"; "HPLN-TAN"; "HPLT-TAN"] true) []
    = Ok (result_array,
          with_flags (reindex_wcs (example_wcs ["TIME"; "WAVE"; "HPLN-TAN"; "HPLT-TAN"] true)
                                  [0; 1; 3; 2]) true true,
          []) /\
    shape result_array = [4; 3; 2] /\
    (exists source, elem result_array [3; 2; 1] = elem (example_array [2; 3; 4]) source /\
                    length source = 3 /\
                    nth 2 source 0 = 3 /\ nth 1 source 0 = 2 /\ nth 0 source 0 = 1).
Proof.
  destruct (orient_augmented (example_array [2; 3; 4])
              (example_wcs ["TIME"; "WAVE"; "HPLN-TAN"; "HPLT-TAN"] true) [])
    as (a & ex & Hor & _ & [Hshape Helem] & Hex).
  - reflexivity.
  - reflexivity.
  - reflexivity.
  - reflexivity.
  - simpl. lia.
  - repeat constructor; cbn; intuition discriminate.
  - constructor.
  - inversion Hex; subst.
    exists a. split; [exact Hor|]. split; [exact Hshape|].
    destruct (Helem [3; 2; 1]) as (source & Hsrc & Hlength & Hcoord).
    exists source. split; [exact Hsrc|]. split; [exact Hlength|].
    split; [apply (Hcoord 0); simpl; lia|].
    split; [apply (Hcoord 1); simpl; lia | apply (Hcoord 2); simpl; lia].
Defined.

(* ===================================================================== *)
(** ** Index patterns and classification *)
(* ===================================================================== *)

Lemma iter_isinstance_fold items type_tuples acc :
  fold_left
    (fun result types =>
       if negb (Nat.eqb (length items) (length types)) then result
       else result || all_isinstance items types)
    type_tuples acc
  = acc || existsb (fun types => Nat.eqb (length items) (length types)
                                 && all_isinstance items types) type_tuples.
Proof.
  revert acc. induction type_tuples as [|types r IH]; intros acc; simpl.
  - now rewrite orb_false_r.
  - rewrite IH. destruct (Nat.eqb (length items) (length types)); simpl.
    + now rewrite orb_assoc.
    + reflexivity.
Qed.

Lemma iter_isinstance_tuple items type_tuples :
  iter_isinstance (ITuple items) type_tuples
  = existsb (fun types => Nat.eqb (length items) (length types)
                          && all_isinstance items types) type_tuples.
Proof. unfold iter_isinstance. now rewrite iter_isinstance_fold. Qed.

Lemma iter_isinstance_list items type_tuples :
  iter_isinstance (IList items) type_tuples
  = iter_isinstance (ITuple items) type_tuples.
Proof. reflexivity. Qed.


Lemma int_components_none items :
  existsb (fun i => isinstance i t_int) items = false -> int_components items = [].
Proof.
  induction items as [|[i|s|eq] r IH]; simpl; intros H; try discriminate; auto.
Qed.

Lemma int_components_some items :
  existsb (fun i => isinstance i t_int) items = true -> int_components items <> [].
Proof.
  induction items as [|[i|s|eq] r IH]; simpl; intros H; try discriminate; auto.
Qed.

(** Case analysis on an index: the kind of item, then the first positions
    of a tuple one by one. *)
Ltac destruct_item item :=
  destruct item as
    [?i|?s
    |[|[?i|?s|?eq] [|[?i|?s|?eq] [|[?i|?s|?eq] [|[?i|?s|?eq] ?rest]]]]
    |[|[?i|?s|?eq] [|[?i|?s|?eq] [|[?i|?s|?eq] [|[?i|?s|?eq] ?rest]]]]].

(** X6: the five classification flags of [getitem_3d] exclude one another
    unless both axis 0 and axis 1 are of type WAVE: for every index at most
    one flag is set, so the order in which [getitem_3d] tests them does not
    matter. *)
Theorem classify_3d_flags_exclusive (axes : list string) (item : index) (f : flags_3d) :
  classify_3d axes item = Ok f ->
  String.eqb (nth 0 axes "") "WAVE" && String.eqb (nth 1 axes "") "WAVE" = false ->
  count_true [to_map f; to_spectrum f; to_spectrogram f; to_lightcurve f;
              stay_as_cube f] <= 1.
Proof.
  intros Hcls Hwave.
  destruct axes as [|axes0 [|axes1 rest_axes]]; try discriminate Hcls.
  cbn in Hwave. unfold classify_3d in Hcls.
  change (py_nth (axes0 :: axes1 :: rest_axes) 1) with (@Ok _ exn axes1) in Hcls.
  change (py_nth (axes0 :: axes1 :: rest_axes) 0) with (@Ok _ exn axes0) in Hcls.
  cbn [bind] in Hcls.
  destruct (String.eqb axes0 "WAVE"), (String.eqb axes1 "WAVE"); try discriminate Hwave;
    destruct_item item; cbn in Hcls; injection Hcls as <-; cbn;
    try lia;
    match goal with |- context [existsb ?p ?l] => destruct (existsb p l) end; cbn; lia.
Qed.

Lemma classify_3d_flags_exclusive_witness :
  count_true [false; true; false; false; false] <= 1.
Proof.
  exact (classify_3d_flags_exclusive ["HPLT-TAN"; "WAVE"; "TIME"]
           (ITuple [CInt 5; CSlice slice_all; CInt 2])
           (mk_flags_3d false true false false false) eq_refl eq_refl).
Defined.

(** With both axes of type WAVE the flags do overlap: the index
    [(slice, int, int)] is a spectrum and a light curve at once, and the
    spectrum wins by being tested first. *)
Example classify_3d_overlap :
  classify_3d ["WAVE"; "WAVE"; "TIME"] (ITuple [CSlice slice_all; CInt 1; CInt 2])
  = Ok (mk_flags_3d false true false true false).
Proof. reflexivity. Qed.

Lemma iter_isinstance_long items type_tuples :
  forallb (fun types => Nat.ltb (length types) (length items)) type_tuples = true ->
  iter_isinstance (ITuple items) type_tuples = false.
Proof.
  intros Hshort. rewrite iter_isinstance_tuple.
  apply not_true_iff_false. intros H.
  apply existsb_exists in H as (types & Hin & H).
  rewrite forallb_forall in Hshort. specialize (Hshort types Hin).
  apply Nat.ltb_lt in Hshort.
  apply andb_true_iff in H as [Hlen _]. apply Nat.eqb_eq in Hlen. lia.
Qed.

(** X7: the six classification flags of [getitem_4d] exclude one another:
    for every index at most one of map, spectrogram, spectrum, cube, light
    curve and stay-as-hypercube is set. *)
Theorem classify_4d_flags_exclusive (item : index) :
  let f := classify_4d item in
  count_true [to_map4 f; to_spectrogram4 f; to_spectrum4 f; to_cube4 f;
              to_lightcurve4 f; stay_as_hypercube f] <= 1.
Proof.
  destruct item as [i|s|items|items]; try (cbn; lia);
    (destruct items as [|c1 [|c2 [|c3 [|c4 [|c5 rest]]]]];
     try (repeat match goal with c : component |- _ => destruct c end; cbn; lia));
    set (items := c1 :: c2 :: c3 :: c4 :: c5 :: rest);
    cbn zeta; unfold classify_4d;
    rewrite ?iter_isinstance_list, !iter_isinstance_long by reflexivity;
    cbn [to_map4 to_spectrogram4 to_spectrum4 to_cube4 to_lightcurve4
         stay_as_hypercube is_int is_slice tuple_without_int orb].
  destruct (existsb (fun i => isinstance i t_int) items) eqn:Hints.
  - cbn. destruct (Nat.eqb _ 1); cbn; lia.
  - rewrite (int_components_none items Hints). cbn. lia.
Qed.

(* ===================================================================== *)
(** ** What [reduce_dim] keeps *)
(* ===================================================================== *)

Lemma take_indices_length n indices js :
  take_indices n indices = Ok js -> length js = length indices.
Proof.
  revert js. induction indices as [|i r IH]; simpl; intros js.
  - now intros [= <-].
  - destruct (take_index n i) as [j|e]; simpl; [|discriminate].
    destruct (take_indices n r) as [js'|e]; simpl; [|discriminate].
    intros [= <-]. simpl. now rewrite (IH js').
Qed.

Lemma take_shape {A : Type} (a b : ndarray A) indices axis :
  take a indices axis = Ok b ->
  exists extent js,
    shape a !! axis = Some extent /\
    take_indices extent indices = Ok js /\
    shape b = <[axis := length js]> (shape a).
Proof.
  unfold take. destruct (shape a !! axis) as [extent|]; [|discriminate].
  destruct (take_indices extent indices) as [js|e] eqn:Hjs; simpl; [|discriminate].
  intros [= <-]. now exists extent, js.
Qed.

(** Two arrays of one shape, taken along one axis with one index list, fail
    together or succeed with one shape. *)
Lemma take_same_shape {A B : Type} (a : ndarray A) (b : ndarray B) indices axis a' :
  shape b = shape a ->
  take a indices axis = Ok a' ->
  exists b', take b indices axis = Ok b' /\ shape b' = shape a'.
Proof.
  intros Hshape Ha.
  destruct (take_shape a a' indices axis Ha) as (extent & js & Hext & Hjs & Hsh).
  unfold take. rewrite Hshape, Hext, Hjs. simpl.
  eexists. split; [reflexivity|]. simpl. now rewrite Hsh.
Qed.

Section ReduceDimFacts.

Variable wcs_slice : WCS -> list (pyslice Z) -> py WCS.

(** X8: [reduce_dim] keeps a cube well formed.  When it returns, the new
    cube has the rank of the old one, its extents differ from the old
    ones on the reduced axis at most, its mask and uncertainty are present
    exactly when they were, and they still have the shape of the data; the
    metadata and the unit are those of the old cube. *)
Theorem reduce_dim_keeps_cube_invariant (cube newcube : Cube) (axis : nat)
    (keys : pyslice Z) :
  same_shape_fields cube ->
  reduce_dim wcs_slice cube axis keys = Ok newcube ->
  same_shape_fields newcube /\
  ndim (data newcube) = ndim (data cube) /\
  (forall k, k <> axis -> shape (data newcube) !! k = shape (data cube) !! k) /\
  (is_Some (mask newcube) <-> is_Some (mask cube)) /\
  (is_Some (uncertainty newcube) <-> is_Some (uncertainty cube)) /\
  meta newcube = meta cube /\
  cube_unit newcube = cube_unit cube.
Proof.
  intros [Hmask Hunc]. unfold reduce_dim.
  destruct (shape (data cube) !! axis) as [extent|] eqn:Hext; [|discriminate].
  destruct (reduce_bounds extent keys) as [[start_ stop_] step_].
  destruct (py_range start_ stop_ step_) as [indices|e]; simpl; [|discriminate].
  destruct (take (data cube) indices axis) as [newdata|e] eqn:Hdata; simpl; [|discriminate].
  destruct (wcs_slice _ _) as [newwcs|e]; simpl; [|discriminate].
  destruct (take_shape _ _ _ _ Hdata) as (ext' & js & _ & _ & Hshape).
  assert (Herrors : forall errors,
             match uncertainty cube with
             | Some unc =>
                 bind (take (array unc) indices axis)
                      (fun arr => Ok (Some (mk_Uncertainty arr (uncertainty_type unc))))
             | None => Ok None
             end = Ok errors ->
             (forall u, errors = Some u -> shape (array u) = shape newdata) /\
             (is_Some errors <-> is_Some (uncertainty cube))).
  { intros errors. destruct (uncertainty cube) as [unc|].
    - destruct (take_same_shape (data cube) (array unc) indices axis newdata
                  (Hunc unc eq_refl) Hdata) as (arr & -> & Harr).
      simpl. intros [= <-]. split; [now intros u [= <-] | split; eauto].
    - intros [= <-]. split; [discriminate | reflexivity]. }
  assert (Hmasks : forall m,
             match mask cube with
             | Some m0 => bind (take m0 indices axis) (fun m' => Ok (Some m'))
             | None => Ok None
             end = Ok m ->
             (forall m', m = Some m' -> shape m' = shape newdata) /\
             (is_Some m <-> is_Some (mask cube))).
  { intros m. destruct (mask cube) as [m0|].
    - destruct (take_same_shape (data cube) m0 indices axis newdata
                  (Hmask m0 eq_refl) Hdata) as (m' & -> & Hm').
      simpl. intros [= <-]. split; [now intros ? [= <-] | split; eauto].
    - intros [= <-]. split; [discriminate | reflexivity]. }
  destruct (match uncertainty cube with Some _ => _ | None => _ end)
    as [errors|e] eqn:He; simpl; [|discriminate].
  destruct (match mask cube with Some _ => _ | None => _ end)
    as [m|e] eqn:Hm; simpl; [|discriminate].
  intros [= <-]. unfold _new_instance, same_shape_fields. simpl.
  destruct (Herrors errors eq_refl) as [Hes Hei].
  destruct (Hmasks m eq_refl) as [Hms Hmi].
  split; [split; assumption|].
  split; [unfold ndim; now rewrite Hshape, length_insert|].
  split; [intros k Hk; rewrite Hshape; now apply list_lookup_insert_ne|].
  repeat split; try apply Hmi; try apply Hei.
Qed.

End ReduceDimFacts.


Lemma range_from_count fuel a k :
  k <= fuel ->
  range_from fuel (Z.of_nat a) (Z.of_nat (a + k)) 1 = map Z.of_nat (seq a k).
Proof.
  revert fuel a. induction k as [|k IH]; intros fuel a Hfuel.
  - rewrite Nat.add_0_r. apply range_from_stop_reached; lia.
  - destruct fuel as [|fuel]; [lia|]. simpl.
    destruct (Z.ltb_spec (Z.of_nat a) (Z.of_nat (a + S k))) as [_|?]; [|lia].
    f_equal.
    replace (Z.of_nat a + 1)%Z with (Z.of_nat (S a)) by lia.
    replace (a + S k) with (S a + k) by lia.
    apply IH. lia.
Qed.

Lemma py_range_full (extent : nat) :
  py_range 0 (Z.of_nat extent) 1 = Ok (map Z.of_nat (seq 0 extent)).
Proof.
  unfold py_range. simpl. f_equal.
  apply (range_from_count _ 0 extent). lia.
Qed.

Lemma take_indices_seq n a k :
  a + k <= n -> take_indices n (map Z.of_nat (seq a k)) = Ok (seq a k).
Proof.
  revert a. induction k as [|k IH]; intros a Hle; simpl; [reflexivity|].
  unfold take_index.
  destruct (Z.ltb_spec (Z.of_nat a) (- Z.of_nat n)) as [?|_]; [lia|].
  destruct (Z.leb_spec (Z.of_nat n) (Z.of_nat a)) as [?|_]; [lia|]. simpl.
  destruct (Z.ltb_spec (Z.of_nat a) 0) as [?|_]; [lia|].
  rewrite IH by lia. simpl. now rewrite Nat2Z.id.
Qed.

(** Taking every position of an axis in order gives the array back. *)
Lemma take_every_position {A : Type} (a : ndarray A) (axis extent : nat) :
  shape a !! axis = Some extent ->
  exists b,
    take a (map Z.of_nat (seq 0 extent)) axis = Ok b /\
    shape b = shape a /\
    agree_on_axis b a axis extent.
Proof.
  intros Hext. unfold take. rewrite Hext.
  rewrite take_indices_seq by lia. simpl.
  eexists. split; [reflexivity|]. simpl. split.
  - rewrite length_seq. now apply list_insert_id.
  - intros idx i Hidx Hi. cbn [elem].
    rewrite (nth_lookup_Some idx axis 0 i Hidx).
    rewrite seq_nth by exact Hi. simpl.
    now rewrite list_insert_id.
Qed.

Section ReduceDimCopy.

Variable wcs_slice : WCS -> list (pyslice Z) -> py WCS.

(** X9: with the full slice [slice(None, None, None)], [reduce_dim] copies
    the cube: the data, the mask and the uncertainty array keep their shape
    and their elements along the axis, and the coordinate system is what
    astropy's slicing by the whole range [slice(0, extent)] of the axis
    returns. *)
Theorem reduce_dim_full_slice_copies (cube : Cube) (axis extent : nat) (newwcs : WCS) :
  same_shape_fields cube ->
  shape (data cube) !! axis = Some extent ->
  wcs_slice (axes_wcs cube)
            (wcs_slice_data (shape (data cube)) axis 0 (Z.of_nat extent)) = Ok newwcs ->
  exists newcube,
    reduce_dim wcs_slice cube axis slice_all = Ok newcube /\
    shape (data newcube) = shape (data cube) /\
    agree_on_axis (data newcube) (data cube) axis extent /\
    axes_wcs newcube = newwcs /\
    (forall m, mask cube = Some m ->
               exists m', mask newcube = Some m' /\ shape m' = shape m /\
                          agree_on_axis m' m axis extent) /\
    (forall u, uncertainty cube = Some u ->
               exists u', uncertainty newcube = Some u' /\
                          shape (array u') = shape (array u) /\
                          agree_on_axis (array u') (array u) axis extent).
Proof.
  intros [Hmask Hunc] Hext Hwcs.
  unfold reduce_dim. rewrite Hext.
  assert (Hbounds : reduce_bounds extent slice_all = (0, Z.of_nat extent, 1)%Z).
  { unfold reduce_bounds. simpl. now rewrite Z.ltb_irrefl. }
  rewrite Hbounds, py_range_full. cbn [bind].
  destruct (take_every_position (data cube) axis extent Hext) as (newdata & -> & Hshape & Hagree).
  cbn [bind]. rewrite Hwcs. cbn [bind].
  destruct (uncertainty cube) as [unc|] eqn:Hu.
  - destruct (take_every_position (array unc) axis extent) as (arr & -> & Harr & Hua).
    { now rewrite (Hunc unc eq_refl). }
    cbn [bind]. destruct (mask cube) as [m0|] eqn:Hm.
    + destruct (take_every_position m0 axis extent) as (m' & -> & Hm' & Hma).
      { now rewrite (Hmask m0 eq_refl). }
      cbn [bind]. eexists. split; [reflexivity|]. simpl.
      repeat split; try assumption.
      * intros m [= <-]. now exists m'.
      * intros u [= <-]. now eexists.
    + cbn [bind]. eexists. split; [reflexivity|]. simpl.
      repeat split; try assumption.
      * discriminate.
      * intros u [= <-]. now eexists.
  - cbn [bind]. destruct (mask cube) as [m0|] eqn:Hm.
    + destruct (take_every_position m0 axis extent) as (m' & -> & Hm' & Hma).
      { now rewrite (Hmask m0 eq_refl). }
      cbn [bind]. eexists. split; [reflexivity|]. simpl.
      repeat split; try assumption.
      * intros m [= <-]. now exists m'.
      * discriminate.
    + cbn [bind]. eexists. split; [reflexivity|]. simpl.
      repeat split; try assumption; discriminate.
Qed.


End ReduceDimCopy.

Lemma example_full_cube_same_shape : same_shape_fields example_full_cube.
Proof. split; intros x [= <-]; reflexivity. Qed.

Lemma reduce_dim_keeps_cube_invariant_witness :
  exists newcube,
    reduce_dim example_wcs_slice example_full_cube 1 (slice2 1 3)%Z = Ok newcube /\
    same_shape_fields newcube /\
    shape (data newcube) = [10; 2; 5] /\
    ndim (data newcube) = ndim (data example_full_cube) /\
    meta newcube = [("instrument", "example")].
Proof.
  eexists. split; [reflexivity|].
  destruct (reduce_dim_keeps_cube_invariant example_wcs_slice example_full_cube _ 1
              (slice2 1 3)%Z example_full_cube_same_shape eq_refl)
    as (Hinv & Hrank & _ & _ & _ & Hmeta & _).
  split; [exact Hinv|]. split; [reflexivity|]. split; [exact Hrank | exact Hmeta].
Defined.

Lemma reduce_dim_full_slice_copies_witness :
  exists newcube,
    reduce_dim example_wcs_slice example_full_cube 1 slice_all = Ok newcube /\
    shape (data newcube) = [10; 4; 5] /\
    agree_on_axis (data newcube) (data example_full_cube) 1 4.
Proof.
  destruct (reduce_dim_full_slice_copies example_wcs_slice example_full_cube 1 4
              (axes_wcs example_full_cube) example_full_cube_same_shape eq_refl eq_refl)
    as (newcube & Hred & Hshape & Hagree & _).
  exists newcube. split; [exact Hred|]. split; [exact Hshape | exact Hagree].
Defined.

